(** * ava.py: device fan-out of one named test

    A shallow embedding of [src/python/ava.py]: the option namespace, the
    per-device configuration ([AvaConfig], [replace_serial]) and the
    orchestration in [main].

    The external collaborators ([ava_common.get_all_serials],
    [ava_common.get_android_serial], the registry [ava_tests.AVA_TESTS], the
    file system behind [open]) are parameters of the development.  Python
    values are modelled without floating-point numbers and with string-keyed
    dictionaries; list objects that option fields refer to live in an
    explicit store, so that aliasing between configurations is observable. *)

From Stdlib Require Import ZArith String List Bool Lia.
From stdpp Require Import base list strings.
Import ListNotations.

Local Open Scope string_scope.
Local Open Scope Z_scope.

Set Warnings "-register-all".

(** ** Python values returned by tests *)

(** A result dictionary and everything reachable from it.  A [PDict] keeps
    its items in insertion order; lookup takes the first binding of a key. *)
Inductive pyval : Type :=
| PNone
| PBool (b : bool)
| PInt (n : Z)
| PStr (s : string)
| PList (items : list pyval)
| PDict (items : list (string * pyval)).

(** The exceptions that can leave [main]. *)
Inductive exn : Type :=
| AssertionError (msg : string)
| KeyError (key : string)
| TypeError
| AttributeError
| OSError (path : string)
| SystemExit (code : Z).

Inductive res (A : Type) : Type :=
| Ok (a : A)
| Raise (e : exn).
Arguments Ok {A} a.
Arguments Raise {A} e.

Fixpoint dict_lookup (k : string) (d : list (string * pyval)) : option pyval :=
  match d with
  | [] => None
  | (k', v) :: d' => if String.eqb k k' then Some v else dict_lookup k d'
  end.

(** [v[k]] for a string key [k]: only a dictionary can be indexed by a
    string, and a missing key is a [KeyError]. *)
Definition py_getitem (v : pyval) (k : string) : res pyval :=
  match v with
  | PDict d =>
      match dict_lookup k d with
      | Some x => Ok x
      | None => Raise (KeyError k)
      end
  | _ => Raise TypeError
  end.

(** [v.get(k, dflt)]: only dictionaries have the method. *)
Definition py_get (v : pyval) (k : string) (dflt : pyval) : res pyval :=
  match v with
  | PDict d => Ok (default dflt (dict_lookup k d))
  | _ => Raise AttributeError
  end.

Fixpoint chars (s : string) : list pyval :=
  match s with
  | EmptyString => []
  | String c s' => PStr (String c EmptyString) :: chars s'
  end.

(** [for x in v]: a list yields its items, a dictionary its keys, a string
    its characters; nothing else is iterable. *)
Definition py_iter (v : pyval) : res (list pyval) :=
  match v with
  | PList l => Ok l
  | PDict d => Ok (map (fun kv => PStr (fst kv)) d)
  | PStr s => Ok (chars s)
  | _ => Raise TypeError
  end.

(** [v == n] for an integer literal [n]; [True] and [False] compare as 1
    and 0, every other non-integer is different from an integer. *)
Definition py_eq_int (v : pyval) (n : Z) : bool :=
  match v with
  | PInt m => m =? n
  | PBool b => (if b then 1 else 0) =? n
  | _ => false
  end.

Definition py_is_none (v : pyval) : bool :=
  match v with
  | PNone => true
  | _ => false
  end.

(** ** Options, configurations and the object store *)

(** Address of a list object. *)
Definition loc := nat.

(** The positional [infile_list] argument: [None], one string (what
    [argparse] stores for [nargs="?"]), or a reference to a list object. *)
Inductive infile : Type :=
| FNone
| FStr (s : string)
| FList (l : loc).

(** The [argparse] namespace returned by [get_options]. *)
Record Namespace : Type := mkNamespace {
  opt_debug : Z;
  opt_dry_run : bool;
  opt_android_serial : option string;
  opt_encoder : option string;
  opt_test : option string;
  opt_test_list : bool;
  opt_infile_list : infile;
  opt_outfile : option string
}.

Record AvaConfig : Type := mkAvaConfig {
  cfg_debug : Z;
  cfg_dry_run : bool;
  cfg_android_serial : option string;
  cfg_encoder : option string;
  cfg_test : option string;
  cfg_infile_list : infile;
  cfg_outfile : option string
}.

(** One line written by [print]. *)
Inductive line : Type :=
| LText (s : string)
| LDebug (options : Namespace)
| LRunTest (name : string)
| LBacktrace (backtrace : pyval)
| LValue (v : pyval).

(** What a run does to the outside world, in order. *)
Inductive event : Type :=
| Print (l : line)
| CallGetAllSerials (filter : option string)
| CallGetAndroidSerial (serial : option string)
| CallTest (name : string) (config : AvaConfig)
| WriteFile (path : string) (doc : pyval).

(** The store of list objects (a list object is addressed by its allocation
    index) and the trace of events so far. *)
Record state : Type := mkState {
  heap : list (list string);
  trace : list event
}.

(** A test of the registry: it reads its configuration (and the list
    objects the configuration refers to) and returns a result value.  What
    a test does to its device is outside the model, and a test is taken to
    return. *)
Definition test_fn : Type := AvaConfig -> list (list string) -> pyval.

(** ** State and exception monad *)

Definition M (A : Type) : Type := state -> res A * state.

Definition ret {A} (a : A) : M A := fun st => (Ok a, st).

Definition bind {A B} (m : M A) (k : A -> M B) : M B :=
  fun st =>
    match m st with
    | (Ok a, st') => k a st'
    | (Raise e, st') => (Raise e, st')
    end.

Definition raise {A} (e : exn) : M A := fun st => (Raise e, st).

Definition lift {A} (r : res A) : M A := fun st => (r, st).

Definition emit (e : event) : M unit :=
  fun st => (Ok tt, mkState (heap st) (trace st ++ [e])).

(** Allocation of a fresh list object. *)
Definition alloc (xs : list string) : M loc :=
  fun st => (Ok (length (heap st)), mkState (heap st ++ [xs]) (trace st)).

Declare Scope run_scope.
Delimit Scope run_scope with run.
Bind Scope run_scope with M.
Notation "x <- c1 ;; c2" := (bind c1 (fun x => c2))
  (at level 100, c1 at next level, c2 at level 200, right associativity)
  : run_scope.
Notation "c1 ;; c2" := (bind c1 (fun _ => c2))
  (at level 100, c2 at level 200, right associativity) : run_scope.
Local Open Scope run_scope.

Fixpoint mapM {A B} (f : A -> M B) (l : list A) : M (list B) :=
  match l with
  | [] => ret []
  | x :: l' => y <- f x ;; ys <- mapM f l' ;; ret (y :: ys)
  end.

Fixpoint iterM {A} (f : A -> M unit) (l : list A) : M unit :=
  match l with
  | [] => ret tt
  | x :: l' => f x ;; iterM f l'
  end.

(** In-place mutation of the list object at [l] (append, item assignment,
    ...): the object has the new contents afterwards. *)
Definition list_mutate (l : loc) (xs : list string) (h : list (list string))
  : list (list string) :=
  <[l := xs]> h.

(** The value a field denotes in a store: what a reader of the field sees. *)
Inductive infile_view : Type :=
| VNone
| VStr (s : string)
| VList (xs : option (list string)).

Definition view (h : list (list string)) (f : infile) : infile_view :=
  match f with
  | FNone => VNone
  | FStr s => VStr s
  | FList l => VList (h !! l)
  end.

Section Ava.

(** [ava_common.get_all_serials], [ava_common.get_android_serial]. *)
Variable get_all_serials : option string -> list string.
Variable get_android_serial : option string -> option string.
(** [ava_tests.AVA_TESTS], in the order of its keys. *)
Variable AVA_TESTS : list (string * test_fn).
(** Whether [open(path, "w")] succeeds. *)
Variable writable : string -> bool.
(** The default input file, [f"{SCRIPT_DIR}/../vid/johnny.1280x720.60fps.264.mp4"]. *)
Variable TEST_INPUT_MP4 : string.

(** [copy.deepcopy] of the field value: an immutable value is shared, a
    list object is copied into a fresh object (its items are strings).  An
    address without an object, which no Python reference is, is left as it
    is. *)
Definition deepcopy_infile (f : infile) : M infile :=
  match f with
  | FList l =>
      fun st =>
        match heap st !! l with
        | Some xs => (l' <- alloc xs ;; ret (FList l')) st
        | None => (Ok (FList l), st)
        end
  | _ => ret f
  end.

Definition deepcopy (options : Namespace) : M Namespace :=
  f <- deepcopy_infile (opt_infile_list options) ;;
  ret (mkNamespace (opt_debug options) (opt_dry_run options)
         (opt_android_serial options) (opt_encoder options)
         (opt_test options) (opt_test_list options) f (opt_outfile options)).

Definition replace_serial (options : Namespace) (serial : string) : M Namespace :=
  options_ <- deepcopy options ;;
  ret (mkNamespace (opt_debug options_) (opt_dry_run options_)
         (Some serial) (opt_encoder options_)
         (opt_test options_) (opt_test_list options_)
         (opt_infile_list options_) (opt_outfile options_)).

(** [AvaConfig.__init__]. *)
Definition AvaConfig_init (options : Namespace) : M AvaConfig :=
  emit (CallGetAndroidSerial (opt_android_serial options)) ;;
  let serial := get_android_serial (opt_android_serial options) in
  infile_list <- match opt_infile_list options with
    | FNone => l <- alloc [TEST_INPUT_MP4] ;; ret (FList l)
    | f => ret f
    end ;;
  ret (mkAvaConfig (opt_debug options) (opt_dry_run options) serial
         (opt_encoder options) (opt_test options) infile_list
         (opt_outfile options)).

(** [ava_configs = [AvaConfig(replace_serial(options, serial)) for serial in devices]]. *)
Definition build_config (options : Namespace) (serial : string) : M AvaConfig :=
  options_ <- replace_serial options serial ;;
  AvaConfig_init options_.

Definition build_configs (options : Namespace) (devices : list string)
  : M (list AvaConfig) :=
  mapM (build_config options) devices.

(** [with open(options.outfile, "w") as fd: fd.write(json.dumps(doc, indent=4))]:
    the destination is opened for writing and the serialised [doc] is
    written to it. *)
Definition write_results (outfile : option string) (doc : pyval) : M unit :=
  match outfile with
  | Some path =>
      if writable path then emit (WriteFile path doc) else raise (OSError path)
  | None => raise TypeError
  end.

(** Body of [for result in all_results] (lines 211-213). *)
Definition print_failed (result : pyval) : M unit :=
  retcode <- lift (py_getitem result "retcode") ;;
  if negb (py_eq_int retcode 0) then emit (Print (LValue result)) else ret tt.

(** The branch taken when [results_dict["retcode"] == -1] (lines 207-217). *)
Definition report_fatal (results_dict : pyval) : M unit :=
  backtrace <- lift (py_get results_dict "backtrace" (PStr "No backtrace")) ;;
  emit (Print (LBacktrace backtrace)) ;;
  results <- lift (py_get results_dict "results" PNone) ;;
  (if negb (py_is_none results) then
     all_results <- lift (py_getitem results_dict "results") ;;
     items <- lift (py_iter all_results) ;;
     iterM print_failed items
   else emit (Print (LValue results_dict))) ;;
  raise (SystemExit (-1)).

(** One iteration of [for ava_config in ava_configs] (lines 204-221). *)
Definition run_one (name : string) (f : test_fn) (outfile : option string)
    (ava_config : AvaConfig) : M unit :=
  emit (Print (LRunTest name)) ;;
  emit (CallTest name ava_config) ;;
  results_dict <- (fun st => (Ok (f ava_config (heap st)), st)) ;;
  retcode <- lift (py_getitem results_dict "retcode") ;;
  if py_eq_int retcode (-1) then report_fatal results_dict
  else write_results outfile results_dict.

Definition run_tests (name : string) (f : test_fn) (outfile : option string)
    (ava_configs : list AvaConfig) : M unit :=
  iterM (run_one name f outfile) ava_configs.

Fixpoint registry_lookup (name : string) (tests : list (string * test_fn))
  : option test_fn :=
  match tests with
  | [] => None
  | (n, f) :: tests' =>
      if String.eqb name n then Some f else registry_lookup name tests'
  end.

(** Lines 178-183: [--test-list]. *)
Definition list_tests : M unit :=
  emit (Print (LText "list of available tests")) ;;
  iterM (fun name => emit (Print (LText ("* " ++ name)))) (map fst AVA_TESTS).

(** Lines 185-186: [options.outfile] defaults to standard output. *)
Definition resolve_outfile (outfile : option string) : string :=
  match outfile with
  | None => "/dev/fd/1"
  | Some p => if String.eqb p "-" then "/dev/fd/1" else p
  end.

Definition set_outfile (options : Namespace) : Namespace :=
  let outfile := resolve_outfile (opt_outfile options) in
  mkNamespace (opt_debug options) (opt_dry_run options)
    (opt_android_serial options) (opt_encoder options) (opt_test options)
    (opt_test_list options) (opt_infile_list options) (Some outfile).

(** Lines 188-195: the devices are enumerated and one configuration is
    built for each of them. *)
Definition create_configs (options : Namespace) : M (list AvaConfig) :=
  (if 0 <? opt_debug options then emit (Print (LDebug options)) else ret tt) ;;
  emit (CallGetAllSerials (opt_android_serial options)) ;;
  let devices := get_all_serials (opt_android_serial options) in
  (if (length devices =? 0)%nat
   then emit (Print (LText "No connected devices")) else ret tt) ;;
  build_configs options devices.

(** Lines 197-221: the selected test is checked and run on every
    configuration (the interpreter runs with assertions enabled). *)
Definition run_selected (options : Namespace) (ava_configs : list AvaConfig)
  : M unit :=
  match opt_test options with
  | None => ret tt
  | Some name =>
      match registry_lookup name AVA_TESTS with
      | None => raise (AssertionError ("error: unknown test " ++ name))
      | Some f => run_tests name f (opt_outfile options) ava_configs
      end
  end.

(** [main], from the parsed options on. *)
Definition main (options : Namespace) : M unit :=
  if opt_test_list options then list_tests
  else
    let options := set_outfile options in
    ava_configs <- create_configs options ;;
    run_selected options ava_configs.

End Ava.

(** The exit status of the process for a way of leaving [main]:
    [sys.exit(n)] exits with [n] modulo 256, any other uncaught exception
    with 1, a normal return with 0. *)
Definition exit_status (r : res unit) : Z :=
  match r with
  | Ok _ => 0
  | Raise (SystemExit code) => code mod 256
  | Raise _ => 1
  end.

(** A run starts with nothing done yet, in some store. *)
Definition start (h : list (list string)) : state := mkState h [].

(** ** Observations on traces *)

(** The configurations handed to a test, in order of invocation. *)
Definition invoked (tr : list event) : list AvaConfig :=
  flat_map (fun e => match e with CallTest _ c => [c] | _ => [] end) tr.

(** The documents written, with their destination, in order. *)
Definition written (tr : list event) : list (string * pyval) :=
  flat_map (fun e => match e with WriteFile p d => [(p, d)] | _ => [] end) tr.

(** The serials for which a configuration was built, in order. *)
Definition configured (tr : list event) : list (option string) :=
  flat_map (fun e => match e with CallGetAndroidSerial s => [s] | _ => [] end) tr.

(** The lines printed, in order. *)
Definition printed (tr : list event) : list line :=
  flat_map (fun e => match e with Print l => [l] | _ => [] end) tr.

(** ** A concrete scenario used by the examples below *)

Module Scenario.

Definition serials (_ : option string) : list string := ["A"; "B"].
Definition no_serials (_ : option string) : list string := [].
Definition same_serial (s : option string) : option string := s.

Definition retcode_is (n : Z) : pyval := PDict [("retcode", PInt n)].

(** [f(cfg)] returns [{"retcode": 0}] for serial "A" and [{"retcode": 1}]
    otherwise. *)
Definition ping : test_fn := fun cfg _ =>
  match cfg_android_serial cfg with
  | Some "A" => retcode_is 0
  | _ => retcode_is 1
  end.

(** [f(cfg)] returns [{"retcode": -1, "backtrace": "boom"}] for serial "A". *)
Definition boom : test_fn := fun cfg _ =>
  match cfg_android_serial cfg with
  | Some "A" => PDict [("retcode", PInt (-1)); ("backtrace", PStr "boom")]
  | _ => retcode_is 0
  end.

(** A fatal outcome without a backtrace and with nested results. *)
Definition nested_outcome : list (string * pyval) :=
  [("retcode", PInt (-1));
   ("results", PList [retcode_is 0; retcode_is 2; retcode_is 0; retcode_is 3])].

Definition nested : test_fn := fun _ _ => PDict nested_outcome.

(** An outcome without a return code. *)
Definition keyless : test_fn := fun _ _ => PDict [("status", PStr "done")].

Definition registry : list (string * test_fn) :=
  [("ping", ping); ("boom", boom); ("nested", nested); ("keyless", keyless)].

Definition all_writable (_ : string) : bool := true.
Definition none_writable (_ : string) : bool := false.

Definition input : string := "johnny.mp4".

Definition options (name : string) : Namespace :=
  mkNamespace 0 false None None (Some name) false FNone (Some "out.json").

Definition dry_options : Namespace :=
  mkNamespace 0 true None None (Some "ping") false FNone (Some "out.json").

(** Options whose input list is the list object at address 0. *)
Definition list_options : Namespace :=
  mkNamespace 0 false None None (Some "ping") false (FList 0%nat) (Some "out.json").

(** The configuration built for [serial], with its default input list at
    address [l]. *)
Definition cfg (serial : string) (l : loc) (name : string) : AvaConfig :=
  mkAvaConfig 0 false (Some serial) None (Some name) (FList l) (Some "out.json").

(** The state after the configurations of "A" and "B" were built. *)
Definition configured_AB : state :=
  mkState [[input]; [input]]
    [CallGetAllSerials None; CallGetAndroidSerial (Some "A");
     CallGetAndroidSerial (Some "B")].

(** [main] with the scenario's registry, for a device enumerator and a
    file system. *)
Definition run (enumerate : option string -> list string)
    (writable : string -> bool) (o : Namespace) : res unit * state :=
  main enumerate same_serial registry writable input o (start []).

End Scenario.

(** No aliasing from field [f] to field [g] in store [h]: whatever is
    stored into the list object of [f], a reader of [g] sees no change. *)
Definition independent (h : list (list string)) (f g : infile) : Prop :=
  forall l xs, f = FList l -> view (list_mutate l xs h) g = view h g.

(** A mutation through field [f] is seen by the readers of [f]. *)
Definition mutable_through (h : list (list string)) (f : infile) : Prop :=
  forall l xs, f = FList l -> view (list_mutate l xs h) f = VList (Some xs).

(** ** Classification of test outcomes *)

Definition has_retcode (v : pyval) : bool :=
  match py_getitem v "retcode" with
  | Ok _ => true
  | Raise _ => false
  end.

(** The outcome carries the fatal sentinel: its return code is -1. *)
Definition is_fatal (v : pyval) : bool :=
  match py_getitem v "retcode" with
  | Ok rc => py_eq_int rc (-1)
  | Raise _ => false
  end.

(** The outcome carries a return code other than the fatal sentinel. *)
Definition is_soft (v : pyval) : bool :=
  match py_getitem v "retcode" with
  | Ok rc => negb (py_eq_int rc (-1))
  | Raise _ => false
  end.

(** The (sub-)result carries a return code other than 0. *)
Definition is_failure (v : pyval) : bool :=
  match py_getitem v "retcode" with
  | Ok rc => negb (py_eq_int rc 0)
  | Raise _ => false
  end.

(** The nested result list of a fatal outcome is absent ([None] or no
    ["results"] key) or a list whose items all carry a return code. *)
Definition well_nested (d : list (string * pyval)) : bool :=
  match dict_lookup "results" d with
  | None | Some PNone => true
  | Some (PList subs) => forallb has_retcode subs
  | Some _ => false
  end.

(** The report of a fatal outcome, in the words of the specification: the
    backtrace, or a placeholder when the outcome has none; then the nested
    sub-results whose own return code is not 0 when the outcome carries a
    nested result list, and the whole outcome otherwise. *)
Definition fatal_report (d : list (string * pyval)) : list line :=
  LBacktrace (default (PStr "No backtrace") (dict_lookup "backtrace" d)) ::
  match dict_lookup "results" d with
  | Some (PList subs) => map LValue (List.filter is_failure subs)
  | _ => [LValue (PDict d)]
  end.

(** The selected test, if any, is in the registry. *)
Definition selection_known (tests : list (string * test_fn)) (o : Namespace) : bool :=
  match opt_test o with
  | None => true
  | Some name =>
      match registry_lookup name tests with
      | Some _ => true
      | None => false
      end
  end.

(** The events of one iteration that ends with the outcome written. *)
Definition round (name path : string) (f : test_fn) (h : list (list string))
    (c : AvaConfig) : list event :=
  [Print (LRunTest name); CallTest name c; WriteFile path (f c h)].

(** The events of [create_configs] before the configurations are built. *)
Definition prologue (o : Namespace) (devices : list string) : list event :=
  (if 0 <? opt_debug o then [Print (LDebug o)] else []) ++
  [CallGetAllSerials (opt_android_serial o)] ++
  (if (length devices =? 0)%nat
   then [Print (LText "No connected devices")] else []).



(** Two configurations agree on every field but the serial; fields that
    refer to list objects are compared by what they hold in store [h]. *)
Definition same_except_serial (h : list (list string)) (c1 c2 : AvaConfig) : Prop :=
  cfg_debug c1 = cfg_debug c2 /\
  cfg_dry_run c1 = cfg_dry_run c2 /\
  cfg_encoder c1 = cfg_encoder c2 /\
  cfg_test c1 = cfg_test c2 /\
  cfg_outfile c1 = cfg_outfile c2 /\
  view h (cfg_infile_list c1) = view h (cfg_infile_list c2).

(** ** Vocabulary of the further properties *)

(** The events of the loop over the configurations (lines 203-221). *)
Definition loop_event (e : event) : bool :=
  match e with
  | Print (LRunTest _) | Print (LBacktrace _) | Print (LValue _) => true
  | CallTest _ _ | WriteFile _ _ => true
  | _ => false
  end.

(** The lines of the report of a fatal outcome (lines 207-215). *)
Definition report_line (l : line) : bool :=
  match l with
  | LBacktrace _ | LValue _ => true
  | _ => false
  end.

Definition is_enumeration (e : event) : bool :=
  match e with
  | CallGetAllSerials _ => true
  | _ => false
  end.

(** The ways in which the loop over the configurations is left. *)
Definition loop_exit (path : string) (r : res unit) : Prop :=
  r = Ok tt \/ r = Raise (KeyError "retcode") \/ r = Raise TypeError \/
  r = Raise (OSError path) \/ r = Raise (SystemExit (-1)).

(** Two namespaces, each in its store, that a reader cannot tell apart but
    for the serial. *)
Definition same_options_but_serial (h1 : list (list string)) (o1 : Namespace)
    (h2 : list (list string)) (o2 : Namespace) : Prop :=
  opt_debug o1 = opt_debug o2 /\
  opt_dry_run o1 = opt_dry_run o2 /\
  opt_encoder o1 = opt_encoder o2 /\
  opt_test o1 = opt_test o2 /\
  opt_test_list o1 = opt_test_list o2 /\
  opt_outfile o1 = opt_outfile o2 /\
  view h1 (opt_infile_list o1) = view h2 (opt_infile_list o2).

(** A value of ["results"] that is neither [None] nor something whose
    items can be asked for their ["retcode"]: a number, or a non-empty
    string, dictionary or list whose first item is not a dictionary. *)
Definition ill_nested (v : pyval) : bool :=
  match v with
  | PInt _ | PBool _ => true
  | PStr (String _ _) => true
  | PDict (_ :: _) => true
  | PList (PDict _ :: _) => false
  | PList (_ :: _) => true
  | _ => false
  end.

(** What a configuration built from options [o] holds as input list, seen
    from the list field of [o]: the default list when there is none. *)
Definition expected_input (dflt : string) (v : infile_view) : infile_view :=
  match v with
  | VNone => VList (Some [dflt])
  | _ => v
  end.

Definition is_dict (v : pyval) : bool :=
  match v with
  | PDict _ => true
  | _ => false
  end.

(** Tests with ill-formed outcomes. *)
Module Edge.

Definition null : test_fn := fun _ _ => PNone.

Definition scalar_nested : test_fn := fun _ _ =>
  PDict [("retcode", PInt (-1)); ("backtrace", PStr "trace"); ("results", PInt 5)].

Definition registry : list (string * test_fn) :=
  [("null", null); ("scalar", scalar_nested)].

Definition run (o : Namespace) : res unit * state :=
  main Scenario.serials Scenario.same_serial registry Scenario.all_writable
    Scenario.input o (start []).

Definition list_options : Namespace :=
  mkNamespace 3 true (Some "X") None (Some "nope") true FNone (Some "-").

Definition idle_options : Namespace :=
  mkNamespace 1 false None None None false (FStr "in.mp4") (Some "-").

Definition stdout_options : Namespace :=
  mkNamespace 0 false None None (Some "ping") false FNone (Some "-").

End Edge.

(** ** Properties of the configuration builder *)

Section ConfigBuilder.

Variable get_android_serial : option string -> option string.
Variable TEST_INPUT_MP4 : string.

Local Abbreviation build := (build_config get_android_serial TEST_INPUT_MP4).

Lemma view_mutate_other (h : list (list string)) (l l' : loc) (xs : list string) :
  l <> l' -> view (list_mutate l xs h) (FList l') = view h (FList l').
Proof.
  intros Hne. unfold view, list_mutate.
  now rewrite list_lookup_insert_ne.
Qed.

Lemma view_mutate_same (h : list (list string)) (l : loc) (xs : list string) :
  (l < length h)%nat -> view (list_mutate l xs h) (FList l) = VList (Some xs).
Proof.
  intros Hlt. unfold view, list_mutate.
  now rewrite list_lookup_insert_eq.
Qed.

Lemma independent_locs (h : list (list string)) (l l' : loc) :
  l <> l' -> independent h (FList l) (FList l').
Proof.
  intros Hne k xs [= <-]. now apply view_mutate_other.
Qed.

Lemma independent_immutable_l (h : list (list string)) (f g : infile) :
  (forall l, f <> FList l) -> independent h f g.
Proof. intros Hf l xs ->. now destruct (Hf l). Qed.

Lemma independent_immutable_r (h : list (list string)) (f g : infile) :
  (forall l, g <> FList l) -> independent h f g.
Proof.
  intros Hg l xs _. destruct g; try reflexivity. now destruct (Hg l0).
Qed.

(** What [build_config] returns and does to the state, by the shape of the
    base field. *)
Lemma build_config_run (o : Namespace) (serial : string) (st : state) :
  (forall l, opt_infile_list o = FList l -> is_Some (heap st !! l)) ->
  exists f new,
    build o serial st =
      (Ok (mkAvaConfig (opt_debug o) (opt_dry_run o)
             (get_android_serial (Some serial)) (opt_encoder o) (opt_test o)
             f (opt_outfile o)),
       mkState (heap st ++ new)
         (trace st ++ [CallGetAndroidSerial (Some serial)])) /\
    match opt_infile_list o with
    | FNone => f = FList (length (heap st)) /\ new = [[TEST_INPUT_MP4]]
    | FStr s => f = FStr s /\ new = []
    | FList l =>
        f = FList (length (heap st)) /\ exists xs, heap st !! l = Some xs /\ new = [xs]
    end.
Proof.
  intros Hwf. unfold build_config, replace_serial, deepcopy, deepcopy_infile,
    AvaConfig_init.
  destruct (opt_infile_list o) as [| s | l] eqn:Ho.
  - eexists _, _. split; [reflexivity | auto].
  - exists (FStr s), []. split; [| auto].
    cbn. unfold bind, ret, emit. cbn. now rewrite app_nil_r.
  - destruct (Hwf l eq_refl) as [xs Hxs].
    exists (FList (length (heap st))), [xs]. split; [| eauto].
    unfold bind at 1 2 3. rewrite Hxs. reflexivity.
Qed.

(** C5. For every base options value [o] (whose list field, if any, is a
    live object) and distinct serials [s1], [s2], building the configuration
    for [s1] and then the one for [s2] succeeds; the two configurations carry
    the serials resolved from [s1] and [s2] and are identical in every other
    field; and no list object is shared: a mutation through the list field of
    one configuration is seen through that field, and leaves what the sibling
    configuration and the base options hold unchanged (and conversely for a
    mutation through the base options). *)
Theorem sibling_configs_deep_copied (o : Namespace) (s1 s2 : string) (st : state) :
  s1 <> s2 ->
  (forall l, opt_infile_list o = FList l -> is_Some (heap st !! l)) ->
  exists c1 st1 c2 st2,
    build o s1 st = (Ok c1, st1) /\
    build o s2 st1 = (Ok c2, st2) /\
    cfg_android_serial c1 = get_android_serial (Some s1) /\
    cfg_android_serial c2 = get_android_serial (Some s2) /\
    same_except_serial (heap st2) c1 c2 /\
    mutable_through (heap st2) (cfg_infile_list c1) /\
    mutable_through (heap st2) (cfg_infile_list c2) /\
    independent (heap st2) (cfg_infile_list c1) (cfg_infile_list c2) /\
    independent (heap st2) (cfg_infile_list c2) (cfg_infile_list c1) /\
    independent (heap st2) (cfg_infile_list c1) (opt_infile_list o) /\
    independent (heap st2) (cfg_infile_list c2) (opt_infile_list o) /\
    independent (heap st2) (opt_infile_list o) (cfg_infile_list c1) /\
    independent (heap st2) (opt_infile_list o) (cfg_infile_list c2).
Proof.
  intros _ Hwf.
  destruct (build_config_run o s1 st Hwf) as (f1 & new1 & Hb1 & Hf1).
  set (st1 := mkState (heap st ++ new1)
                (trace st ++ [CallGetAndroidSerial (Some s1)])) in *.
  assert (Hwf1 : forall l, opt_infile_list o = FList l -> is_Some (heap st1 !! l)).
  { intros l Hl. destruct (Hwf l Hl) as [xs Hxs]. exists xs.
    cbn. now apply lookup_app_l_Some. }
  destruct (build_config_run o s2 st1 Hwf1) as (f2 & new2 & Hb2 & Hf2).
  eexists _, st1, _, _. split; [exact Hb1 |]. split; [exact Hb2 |].
  split; [reflexivity |]. split; [reflexivity |].
  unfold same_except_serial, mutable_through. cbn [cfg_debug cfg_dry_run
    cfg_encoder cfg_test cfg_outfile cfg_infile_list heap].
  destruct (opt_infile_list o) as [| s | l0] eqn:Ho.
  - destruct Hf1 as [-> ->], Hf2 as [-> ->]. cbn [heap st1] in *.
    rewrite length_app. cbn [length].
    repeat split;
      try (apply independent_immutable_l; congruence);
      try (apply independent_immutable_r; congruence);
      try (apply independent_locs; lia).
    + cbn. rewrite lookup_app_l by (rewrite length_app; cbn; lia).
      rewrite lookup_app_r by lia. rewrite lookup_app_r by (rewrite length_app; cbn; lia).
      rewrite length_app. cbn [length].
      now replace (length (heap st) - length (heap st))%nat with 0%nat by lia;
        replace (length (heap st) + 1 - (length (heap st) + 1))%nat with 0%nat by lia.
    + intros l xs [= <-]. apply view_mutate_same. rewrite !length_app. cbn. lia.
    + intros l xs [= <-]. apply view_mutate_same. rewrite !length_app. cbn. lia.
  - destruct Hf1 as [-> ->], Hf2 as [-> ->].
    repeat split; try discriminate;
      try (apply independent_immutable_l; congruence).
  - destruct Hf1 as [-> (xs & Hxs & ->)], Hf2 as [-> (xs' & Hxs' & ->)].
    cbn [heap st1] in *.
    assert (xs' = xs) as ->.
    { rewrite (lookup_app_l_Some _ _ _ _ Hxs) in Hxs'. congruence. }
    assert (Hl0 : (l0 < length (heap st))%nat) by (eapply lookup_lt_Some; eauto).
    rewrite length_app. cbn [length].
    repeat split;
      try (apply independent_locs; lia).
    + cbn. rewrite lookup_app_l by (rewrite length_app; cbn; lia).
      rewrite lookup_app_r by lia. rewrite lookup_app_r by (rewrite length_app; cbn; lia).
      rewrite length_app. cbn [length].
      now replace (length (heap st) - length (heap st))%nat with 0%nat by lia;
        replace (length (heap st) + 1 - (length (heap st) + 1))%nat with 0%nat by lia.
    + intros l xs0 [= <-]. apply view_mutate_same. rewrite !length_app. cbn. lia.
    + intros l xs0 [= <-]. apply view_mutate_same. rewrite !length_app. cbn. lia.
Qed.

End ConfigBuilder.

(** ** Properties of the orchestration *)

Local Open Scope list_scope.

Lemma bind_ok {A B} (m : M A) (k : A -> M B) (st st' : state) (a : A) :
  m st = (Ok a, st') -> bind m k st = k a st'.
Proof. intros H. unfold bind. now rewrite H. Qed.

Lemma bind_raise {A B} (m : M A) (k : A -> M B) (st st' : state) (e : exn) :
  m st = (Raise e, st') -> bind m k st = (Raise e, st').
Proof. intros H. unfold bind. now rewrite H. Qed.

Lemma iterM_app {A} (f : A -> M unit) (l1 l2 : list A) (st : state) :
  iterM f (l1 ++ l2) st = bind (iterM f l1) (fun _ => iterM f l2) st.
Proof.
  revert st. induction l1 as [| x l1 IH]; intros st; [reflexivity |].
  cbn [app iterM]. unfold bind in *.
  destruct (f x st) as [[[] | e] st1]; [| reflexivity].
  apply IH.
Qed.

Lemma invoked_app (t1 t2 : list event) : invoked (t1 ++ t2) = invoked t1 ++ invoked t2.
Proof. apply flat_map_app. Qed.

Lemma written_app (t1 t2 : list event) : written (t1 ++ t2) = written t1 ++ written t2.
Proof. apply flat_map_app. Qed.

Lemma configured_app (t1 t2 : list event) :
  configured (t1 ++ t2) = configured t1 ++ configured t2.
Proof. apply flat_map_app. Qed.

Lemma printed_app (t1 t2 : list event) : printed (t1 ++ t2) = printed t1 ++ printed t2.
Proof. apply flat_map_app. Qed.

Lemma invoked_prints (ls : list line) : invoked (map Print ls) = [].
Proof. induction ls; [reflexivity | assumption]. Qed.

Lemma written_prints (ls : list line) : written (map Print ls) = [].
Proof. induction ls; [reflexivity | assumption]. Qed.

Lemma configured_prints (ls : list line) : configured (map Print ls) = [].
Proof. induction ls; [reflexivity | assumption]. Qed.

Lemma printed_prints (ls : list line) : printed (map Print ls) = ls.
Proof. induction ls as [| l ls IH]; [reflexivity | cbn; now f_equal]. Qed.

Lemma configured_builds (devices : list string) :
  configured (map (fun s => CallGetAndroidSerial (Some s)) devices) = map Some devices.
Proof. induction devices as [| d ds IH]; [reflexivity | cbn; now f_equal]. Qed.

Lemma invoked_builds (devices : list string) :
  invoked (map (fun s => CallGetAndroidSerial (Some s)) devices) = [].
Proof. induction devices; [reflexivity | assumption]. Qed.

Lemma written_builds (devices : list string) :
  written (map (fun s => CallGetAndroidSerial (Some s)) devices) = [].
Proof. induction devices; [reflexivity | assumption]. Qed.

Lemma invoked_prologue (o : Namespace) (devices : list string) :
  invoked (prologue o devices) = [].
Proof. unfold prologue. now destruct (0 <? opt_debug o), (length devices =? 0)%nat. Qed.

Lemma written_prologue (o : Namespace) (devices : list string) :
  written (prologue o devices) = [].
Proof. unfold prologue. now destruct (0 <? opt_debug o), (length devices =? 0)%nat. Qed.

Lemma configured_prologue (o : Namespace) (devices : list string) :
  configured (prologue o devices) = [].
Proof. unfold prologue. now destruct (0 <? opt_debug o), (length devices =? 0)%nat. Qed.

Lemma invoked_rounds (name path : string) (f : test_fn) (h : list (list string))
    (cs : list AvaConfig) :
  invoked (flat_map (round name path f h) cs) = cs.
Proof. induction cs as [| c cs IH]; [reflexivity | cbn; now f_equal]. Qed.

Lemma written_rounds (name path : string) (f : test_fn) (h : list (list string))
    (cs : list AvaConfig) :
  written (flat_map (round name path f h) cs) = map (fun c => (path, f c h)) cs.
Proof. induction cs as [| c cs IH]; [reflexivity | cbn; now f_equal]. Qed.

Lemma configured_rounds (name path : string) (f : test_fn) (h : list (list string))
    (cs : list AvaConfig) :
  configured (flat_map (round name path f h) cs) = [].
Proof. induction cs as [| c cs IH]; [reflexivity | assumption]. Qed.

Lemma printed_rounds (name path : string) (f : test_fn) (h : list (list string))
    (cs : list AvaConfig) :
  printed (flat_map (round name path f h) cs) = map (fun _ => LRunTest name) cs.
Proof. induction cs as [| c cs IH]; [reflexivity | cbn; now f_equal]. Qed.

Lemma invoked_stop (name : string) (c : AvaConfig) (ls : list line) :
  invoked (Print (LRunTest name) :: CallTest name c :: map Print ls) = [c].
Proof. cbn. now rewrite invoked_prints. Qed.

Lemma written_stop (name : string) (c : AvaConfig) (ls : list line) :
  written (Print (LRunTest name) :: CallTest name c :: map Print ls) = [].
Proof. cbn. now rewrite written_prints. Qed.

Lemma configured_stop (name : string) (c : AvaConfig) (ls : list line) :
  configured (Print (LRunTest name) :: CallTest name c :: map Print ls) = [].
Proof. cbn. now rewrite configured_prints. Qed.

Lemma printed_stop (name : string) (c : AvaConfig) (ls : list line) :
  printed (Print (LRunTest name) :: CallTest name c :: map Print ls) =
  LRunTest name :: ls.
Proof. cbn. now rewrite printed_prints. Qed.

(** Normalisation of an observation of a composite trace. *)
Ltac trace_simpl :=
  rewrite ?invoked_app, ?written_app, ?configured_app, ?printed_app,
    ?invoked_prints, ?written_prints, ?configured_prints, ?printed_prints,
    ?configured_builds, ?invoked_builds, ?written_builds,
    ?invoked_prologue, ?written_prologue, ?configured_prologue,
    ?invoked_rounds, ?written_rounds, ?configured_rounds, ?printed_rounds,
    ?invoked_stop, ?written_stop, ?configured_stop, ?printed_stop,
    ?app_nil_r, ?app_nil_l.

Section Orchestrator.

Variable get_all_serials : option string -> list string.
Variable get_android_serial : option string -> option string.
Variable AVA_TESTS : list (string * test_fn).
Variable writable : string -> bool.
Variable TEST_INPUT_MP4 : string.

Local Abbreviation build := (build_config get_android_serial TEST_INPUT_MP4).
Local Abbreviation builds := (build_configs get_android_serial TEST_INPUT_MP4).
Local Abbreviation configs :=
  (create_configs get_all_serials get_android_serial TEST_INPUT_MP4).
Local Abbreviation tests := (run_tests writable).
Local Abbreviation one := (run_one writable).
Local Abbreviation ava_main :=
  (main get_all_serials get_android_serial AVA_TESTS writable TEST_INPUT_MP4).

(** Building a configuration never fails; it records the serial lookup and
    can only extend the store. *)
Lemma build_config_total (o : Namespace) (serial : string) (st : state) :
  exists f new,
    build o serial st =
      (Ok (mkAvaConfig (opt_debug o) (opt_dry_run o)
             (get_android_serial (Some serial)) (opt_encoder o) (opt_test o)
             f (opt_outfile o)),
       mkState (heap st ++ new)
         (trace st ++ [CallGetAndroidSerial (Some serial)])).
Proof.
  unfold build_config, replace_serial, deepcopy, deepcopy_infile, AvaConfig_init.
  destruct (opt_infile_list o) as [| s | l] eqn:Ho.
  - eexists _, _. reflexivity.
  - exists (FStr s), []. cbn. unfold bind, ret, emit. cbn. now rewrite app_nil_r.
  - destruct (heap st !! l) as [xs |] eqn:Hxs.
    + exists (FList (length (heap st))), [xs].
      unfold bind at 1 2 3. rewrite Hxs. reflexivity.
    + exists (FList l), []. unfold bind at 1 2 3. rewrite Hxs.
      cbn. unfold bind, ret, emit. cbn. now rewrite app_nil_r.
Qed.

Lemma build_configs_total (o : Namespace) (devices : list string) (st : state) :
  exists cs new,
    builds o devices st =
      (Ok cs,
       mkState (heap st ++ new)
         (trace st ++ map (fun s => CallGetAndroidSerial (Some s)) devices)) /\
    map cfg_android_serial cs = map (fun s => get_android_serial (Some s)) devices /\
    Forall (fun c => cfg_dry_run c = opt_dry_run o) cs.
Proof.
  revert st. induction devices as [| d ds IH]; intros st.
  - exists [], []. cbn. unfold ret. rewrite !app_nil_r. destruct st; auto.
  - destruct (build_config_total o d st) as (f & new & Hb).
    destruct (IH (mkState (heap st ++ new)
                    (trace st ++ [CallGetAndroidSerial (Some d)])))
      as (cs & new' & Hbs & Hser & Hdry).
    eexists (_ :: cs), (new ++ new'). split; [| split].
    + unfold build_configs in *. cbn [mapM].
      rewrite (bind_ok _ _ _ _ _ Hb). rewrite (bind_ok _ _ _ _ _ Hbs).
      cbn. unfold ret. now rewrite <- !app_assoc.
    + cbn. now f_equal.
    + constructor; [reflexivity | assumption].
Qed.

(** The configuration phase never fails: after its prologue, one
    configuration is built for each enumerated device, in order. *)
Lemma create_configs_total (o : Namespace) (st : state) :
  let devices := get_all_serials (opt_android_serial o) in
  exists cs new,
    configs o st =
      (Ok cs,
       mkState (heap st ++ new)
         (trace st ++ prologue o devices ++
          map (fun s => CallGetAndroidSerial (Some s)) devices)) /\
    map cfg_android_serial cs = map (fun s => get_android_serial (Some s)) devices /\
    Forall (fun c => cfg_dry_run c = opt_dry_run o) cs.
Proof.
  intros devices. unfold create_configs, prologue. fold devices.
  set (st1 := mkState (heap st)
     (trace st ++ (if 0 <? opt_debug o then [Print (LDebug o)] else []) ++
        [CallGetAllSerials (opt_android_serial o)] ++
        (if (length devices =? 0)%nat
         then [Print (LText "No connected devices")] else []))).
  destruct (build_configs_total o devices st1) as (cs & new & Hbs & Hser & Hdry).
  exists cs, new. split; [| auto].
  subst st1. cbn [heap trace] in Hbs. rewrite <- !app_assoc in *.
  rewrite <- Hbs. unfold bind, emit, ret.
  destruct (0 <? opt_debug o), (length devices =? 0)%nat; cbn [heap trace app];
    rewrite <- ?app_assoc; cbn [app]; rewrite ?app_nil_r; reflexivity.
Qed.

(** *** The fatal branch *)

Lemma print_failed_run (result : pyval) (st : state) :
  has_retcode result = true ->
  print_failed result st =
    (Ok tt,
     mkState (heap st)
       (trace st ++ map (fun s => Print (LValue s)) (List.filter is_failure [result]))).
Proof.
  unfold has_retcode, print_failed, is_failure, List.filter, bind, lift.
  destruct (py_getitem result "retcode") as [rc | e]; [intros _ | discriminate].
  destruct (py_eq_int rc 0); cbn; [| reflexivity].
  unfold ret. rewrite app_nil_r. now destruct st.
Qed.

Lemma print_failed_all (subs : list pyval) (st : state) :
  forallb has_retcode subs = true ->
  iterM print_failed subs st =
    (Ok tt,
     mkState (heap st)
       (trace st ++ map (fun s => Print (LValue s)) (List.filter is_failure subs))).
Proof.
  revert st. induction subs as [| s subs IH]; intros st Hall.
  - cbn. unfold ret. rewrite app_nil_r. now destruct st.
  - cbn [forallb] in Hall. apply andb_prop in Hall as [Hs Hall].
    cbn [iterM]. rewrite (bind_ok _ _ _ _ _ (print_failed_run s st Hs)).
    rewrite (IH _ Hall). cbn [heap trace List.filter].
    destruct (is_failure s); cbn [map app]; rewrite <- ?app_assoc; reflexivity.
Qed.

(** The loop over the nested results prints only, and can only be left by a
    failed lookup of ["retcode"]. *)
Lemma print_failed_any (items : list pyval) (st : state) :
  exists r ls,
    iterM print_failed items st = (r, mkState (heap st) (trace st ++ map Print ls)) /\
    (r = Ok tt \/ r = Raise (KeyError "retcode") \/ r = Raise TypeError).
Proof.
  revert st. induction items as [| s items IH]; intros st.
  - exists (Ok tt), []. cbn. unfold ret. rewrite app_nil_r. destruct st; auto.
  - cbn [iterM]. unfold bind at 1. unfold print_failed at 1. unfold bind, lift.
    destruct (py_getitem s "retcode") as [rc | e] eqn:Hget.
    + destruct (negb (py_eq_int rc 0)).
      * destruct (IH (mkState (heap st) (trace st ++ [Print (LValue s)])))
          as (r & ls & Hrun & Hr).
        exists r, (LValue s :: ls). unfold emit. rewrite Hrun.
        cbn [heap trace map]. rewrite <- app_assoc. auto.
      * destruct (IH st) as (r & ls & Hrun & Hr).
        exists r, ls. unfold ret. auto.
    + exists (Raise e), []. cbn [map]. rewrite app_nil_r. split; [now destruct st |].
      unfold py_getitem in Hget.
      destruct s; try (injection Hget as <-; auto).
      destruct (dict_lookup "retcode" items0); [discriminate |].
      injection Hget as <-; auto.
Qed.

(** The branch of a fatal outcome only prints and always ends in an
    exception; the process exits with a status other than 0. *)
Lemma report_fatal_raises (v : pyval) (st : state) :
  exists e ls,
    report_fatal v st = (Raise e, mkState (heap st) (trace st ++ map Print ls)) /\
    exit_status (Raise e) <> 0.
Proof.
  unfold report_fatal.
  destruct v as [| b | n | s | items | d];
    try (exists AttributeError, []; cbn; rewrite app_nil_r;
         split; [now destruct st | discriminate]).
  unfold bind at 1. unfold lift at 1. cbn [py_get].
  unfold bind at 1. unfold emit at 1.
  unfold bind at 1. unfold lift at 1. cbn [py_get].
  set (bt := default (PStr "No backtrace") (dict_lookup "backtrace" d)).
  set (st1 := mkState (heap st) (trace st ++ [Print (LBacktrace bt)])).
  destruct (py_is_none (default PNone (dict_lookup "results" d))) eqn:Hnone;
    cbn [negb].
  - exists (SystemExit (-1)), [LBacktrace bt; LValue (PDict d)].
    unfold bind, emit, raise. cbn. rewrite <- app_assoc. split; [reflexivity | discriminate].
  - unfold bind at 1. unfold bind at 1. unfold lift at 1.
    destruct (py_getitem (PDict d) "results") as [all_results | e] eqn:Hall.
    2:{ exists e, [LBacktrace bt]. split; [reflexivity |].
        unfold py_getitem in Hall. destruct (dict_lookup "results" d); [discriminate |].
        injection Hall as <-. discriminate. }
    unfold bind at 1. unfold lift at 1.
    destruct (py_iter all_results) as [items | e] eqn:Hiter.
    2:{ exists e, [LBacktrace bt]. split; [reflexivity |].
        destruct all_results; cbn in Hiter; try discriminate;
          injection Hiter as <-; discriminate. }
    destruct (print_failed_any items st1) as (r & ls & Hrun & Hr).
    rewrite Hrun. subst st1. cbn [heap trace]. rewrite <- app_assoc.
    destruct Hr as [-> | [-> | ->]].
    + exists (SystemExit (-1)), (LBacktrace bt :: ls). split; [reflexivity | discriminate].
    + exists (KeyError "retcode"), (LBacktrace bt :: ls). split; [reflexivity | discriminate].
    + exists TypeError, (LBacktrace bt :: ls). split; [reflexivity | discriminate].
Qed.

Lemma report_fatal_exact (d : list (string * pyval)) (st : state) :
  well_nested d = true ->
  report_fatal (PDict d) st =
    (Raise (SystemExit (-1)),
     mkState (heap st) (trace st ++ map Print (fatal_report d))).
Proof.
  unfold well_nested, fatal_report, report_fatal. intros Hwf.
  unfold bind at 1. unfold lift at 1. cbn [py_get].
  unfold bind at 1. unfold emit at 1.
  unfold bind at 1. unfold lift at 1. cbn [py_get py_getitem].
  destruct (dict_lookup "results" d) as [[| b | n | s | subs | d'] |];
    try discriminate; cbn [default py_is_none negb].
  - unfold bind, emit, raise. cbn. now rewrite <- app_assoc.
  - unfold bind at 1. unfold bind at 1. unfold lift at 1.
    unfold bind at 1. unfold lift at 1. cbn [py_iter].
    rewrite (print_failed_all subs _ Hwf). unfold raise. cbn [heap trace map].
    rewrite <- app_assoc. cbn [app]. now rewrite map_map.
  - unfold bind, emit, raise. cbn. now rewrite <- app_assoc.
Qed.

(** A nested sub-result without ["retcode"] ends the report with a
    [KeyError]. *)
Lemma report_fatal_missing (d bad : list (string * pyval)) (s1 s2 : list pyval)
    (st : state) :
  dict_lookup "results" d = Some (PList (s1 ++ PDict bad :: s2)) ->
  forallb has_retcode s1 = true ->
  dict_lookup "retcode" bad = None ->
  report_fatal (PDict d) st =
    (Raise (KeyError "retcode"),
     mkState (heap st)
       (trace st ++
        Print (LBacktrace (default (PStr "No backtrace") (dict_lookup "backtrace" d))) ::
        map (fun s => Print (LValue s)) (List.filter is_failure s1))).
Proof.
  intros Hres Hs1 Hbad. unfold report_fatal.
  unfold bind at 1. unfold lift at 1. cbn [py_get].
  unfold bind at 1. unfold emit at 1.
  unfold bind at 1. unfold lift at 1. cbn [py_get py_getitem].
  rewrite Hres. unfold default. cbn [from_option id py_is_none negb].
  unfold bind at 1. unfold bind at 1. unfold lift at 1.
  unfold bind at 1. unfold lift at 1. cbn [py_iter].
  rewrite iterM_app. rewrite (bind_ok _ _ _ _ _ (print_failed_all s1 _ Hs1)).
  cbn [iterM]. unfold bind at 1. unfold print_failed at 1.
  unfold bind at 1. unfold lift at 1. cbn [py_getitem]. rewrite Hbad.
  cbn [heap trace]. now rewrite <- app_assoc.
Qed.

(** *** One iteration and the loop *)

Lemma run_one_soft (name path : string) (f : test_fn) (c : AvaConfig) (st : state) :
  is_soft (f c (heap st)) = true ->
  writable path = true ->
  one name f (Some path) c st =
    (Ok tt, mkState (heap st) (trace st ++ round name path f (heap st) c)).
Proof.
  unfold is_soft, run_one, write_results. intros Hsoft Hw.
  unfold bind, emit, lift. cbn [heap trace].
  destruct (py_getitem (f c (heap st)) "retcode") as [rc | e]; [| discriminate].
  apply negb_true_iff in Hsoft. rewrite Hsoft, Hw.
  cbn [heap trace]. unfold round. now rewrite <- !app_assoc.
Qed.

(** An iteration that does not end with the outcome written ends in an
    exception, after the test was invoked and some lines were printed. *)
Lemma run_one_stops (name path : string) (f : test_fn) (c : AvaConfig) (st : state) :
  is_soft (f c (heap st)) && writable path = false ->
  exists e ls,
    one name f (Some path) c st =
      (Raise e,
       mkState (heap st)
         (trace st ++ [Print (LRunTest name); CallTest name c] ++ map Print ls)) /\
    exit_status (Raise e) <> 0.
Proof.
  unfold is_soft, run_one, write_results. intros Hstop.
  unfold bind at 1. unfold emit at 1. unfold bind at 1. unfold emit at 1.
  unfold bind at 1. cbn [heap trace]. unfold bind at 1. unfold lift at 1.
  rewrite <- app_assoc. cbn [app].
  set (st1 := mkState (heap st) (trace st ++ [Print (LRunTest name); CallTest name c])).
  destruct (py_getitem (f c (heap st)) "retcode") as [rc | e] eqn:Hget.
  - destruct (py_eq_int rc (-1)) eqn:Hrc.
    + destruct (report_fatal_raises (f c (heap st)) st1) as (e & ls & Hrun & He).
      exists e, ls. rewrite Hrun. subst st1. cbn [heap trace].
      rewrite <- app_assoc. auto.
    + cbn [negb andb] in Hstop. rewrite Hstop.
      exists (OSError path), []. unfold raise. cbn [map]. split; [reflexivity | discriminate].
  - exists e, []. split; [reflexivity |].
    unfold py_getitem in Hget. destruct (f c (heap st)); try (injection Hget as <-; discriminate).
    destruct (dict_lookup "retcode" items); [discriminate |].
    injection Hget as <-. discriminate.
Qed.

Lemma run_one_fatal (name path : string) (f : test_fn) (c : AvaConfig) (st : state) :
  is_fatal (f c (heap st)) = true ->
  one name f (Some path) c st =
    (let (r, st') :=
       report_fatal (f c (heap st))
         (mkState (heap st) (trace st ++ [Print (LRunTest name); CallTest name c])) in
     (r, st')).
Proof.
  unfold is_fatal, run_one. intros Hfatal.
  unfold bind at 1. unfold emit at 1. unfold bind at 1. unfold emit at 1.
  unfold bind at 1. cbn [heap trace]. unfold bind at 1. unfold lift at 1.
  rewrite <- app_assoc. cbn [app].
  destruct (py_getitem (f c (heap st)) "retcode") as [rc | e]; [| discriminate].
  rewrite Hfatal. now destruct (report_fatal _ _).
Qed.

Lemma run_one_missing (name path : string) (f : test_fn) (c : AvaConfig) (st : state)
    (d : list (string * pyval)) :
  f c (heap st) = PDict d ->
  dict_lookup "retcode" d = None ->
  one name f (Some path) c st =
    (Raise (KeyError "retcode"),
     mkState (heap st) (trace st ++ [Print (LRunTest name); CallTest name c])).
Proof.
  intros Hv Hd. unfold run_one.
  unfold bind at 1. unfold emit at 1. unfold bind at 1. unfold emit at 1.
  unfold bind at 1. cbn [heap trace]. unfold bind at 1. unfold lift at 1.
  rewrite <- app_assoc. cbn [app].
  rewrite Hv. cbn [py_getitem]. now rewrite Hd.
Qed.

(** While the outcomes are soft and can be written, the loop goes on. *)
Lemma run_tests_soft_prefix (name path : string) (f : test_fn)
    (cs1 cs2 : list AvaConfig) (st : state) :
  forallb (fun c => is_soft (f c (heap st))) cs1 = true ->
  cs1 = [] \/ writable path = true ->
  tests name f (Some path) (cs1 ++ cs2) st =
    tests name f (Some path) cs2
      (mkState (heap st) (trace st ++ flat_map (round name path f (heap st)) cs1)).
Proof.
  revert st. induction cs1 as [| c cs1 IH]; intros st Hsoft Hw.
  - cbn. rewrite app_nil_r. now destruct st.
  - destruct Hw as [Hw | Hw]; [discriminate |].
    cbn [forallb] in Hsoft. apply andb_prop in Hsoft as [Hc Hsoft].
    unfold run_tests in *. cbn [app iterM].
    rewrite (bind_ok _ _ _ _ _ (run_one_soft name path f c st Hc Hw)).
    rewrite IH by auto. cbn [heap trace flat_map]. now rewrite <- app_assoc.
Qed.

Lemma run_tests_all_soft (name path : string) (f : test_fn)
    (cs : list AvaConfig) (st : state) :
  forallb (fun c => is_soft (f c (heap st))) cs = true ->
  cs = [] \/ writable path = true ->
  tests name f (Some path) cs st =
    (Ok tt, mkState (heap st) (trace st ++ flat_map (round name path f (heap st)) cs)).
Proof.
  intros Hsoft Hw.
  rewrite <- (app_nil_r cs) at 1. now rewrite run_tests_soft_prefix.
Qed.

(** If the test of the [i]-th configuration was invoked, the outcomes of
    all earlier configurations were soft and were written. *)
Lemma reached_prefix (name path : string) (f : test_fn) (cs : list AvaConfig) :
  forall (i : nat) (st st' : state) (r : res unit),
    tests name f (Some path) cs st = (r, st') ->
    (length (invoked (trace st)) + i < length (invoked (trace st')))%nat ->
    forallb (fun c => is_soft (f c (heap st))) (take i cs) = true /\
    (i = 0%nat \/ writable path = true) /\
    (i < length cs)%nat.
Proof.
  induction cs as [| c cs IH]; intros i st st' r Hrun Hi.
  - cbn in Hrun. injection Hrun as <- <-. lia.
  - unfold run_tests in *. cbn [iterM] in Hrun.
    destruct (is_soft (f c (heap st)) && writable path) eqn:Hgo.
    + apply andb_prop in Hgo as [Hc Hw].
      rewrite (bind_ok _ _ _ _ _ (run_one_soft name path f c st Hc Hw)) in Hrun.
      destruct i as [| j]; [cbn; repeat split; auto; lia |].
      apply IH with (i := j) in Hrun.
      * cbn [heap] in Hrun. destruct Hrun as (Hsoft & _ & Hlen).
        cbn [take forallb length]. rewrite Hc, Hsoft. repeat split; auto; lia.
      * cbn [trace]. rewrite invoked_app. cbn. rewrite length_app. cbn. lia.
    + destruct (run_one_stops name path f c st Hgo) as (e & ls & Hone & _).
      rewrite (bind_raise _ _ _ _ _ Hone) in Hrun. injection Hrun as <- <-.
      cbn [trace] in Hi. rewrite invoked_app, invoked_stop, length_app in Hi.
      cbn in Hi.
      assert (i = 0%nat) as -> by lia. cbn. repeat split; auto; lia.
Qed.

(** Whatever happens, the tests invoked are a prefix of the configurations
    (a non-empty one if there is a configuration), and the loop builds no
    configuration and takes back no write. *)
Lemma run_tests_invoked (name path : string) (f : test_fn) (cs : list AvaConfig) :
  forall (st st' : state) (r : res unit),
    tests name f (Some path) cs st = (r, st') ->
    exists k w,
      invoked (trace st') = invoked (trace st) ++ take k cs /\
      (cs = [] \/ 0 < k)%nat /\
      configured (trace st') = configured (trace st) /\
      written (trace st') = written (trace st) ++ w.
Proof.
  induction cs as [| c cs IH]; intros st st' r Hrun.
  - cbn in Hrun. injection Hrun as <- <-. exists 0%nat, [].
    rewrite !app_nil_r. auto.
  - unfold run_tests in *. cbn [iterM] in Hrun.
    destruct (is_soft (f c (heap st)) && writable path) eqn:Hgo.
    + apply andb_prop in Hgo as [Hc Hw].
      rewrite (bind_ok _ _ _ _ _ (run_one_soft name path f c st Hc Hw)) in Hrun.
      destruct (IH _ _ _ Hrun) as (k & w & Hinv & _ & Hcfg & Hwr).
      exists (S k), ((path, f c (heap st)) :: w).
      cbn [trace] in *. rewrite invoked_app, configured_app, written_app in *.
      cbn in *. rewrite app_nil_r in Hcfg. rewrite <- app_assoc in Hinv, Hwr.
      repeat split; auto. right. lia.
    + destruct (run_one_stops name path f c st Hgo) as (e & ls & Hone & _).
      rewrite (bind_raise _ _ _ _ _ Hone) in Hrun. injection Hrun as <- <-.
      exists 1%nat, []. cbn [trace]. rewrite invoked_app, configured_app, written_app.
      rewrite invoked_stop, configured_stop, written_stop, !app_nil_r.
      repeat split; auto.
Qed.

Lemma run_tests_trace_grows (name path : string) (f : test_fn) (cs : list AvaConfig) :
  forall (st st' : state) (r : res unit),
    tests name f (Some path) cs st = (r, st') ->
    exists more, trace st' = trace st ++ more.
Proof.
  induction cs as [| c cs IH]; intros st st' r Hrun.
  - cbn in Hrun. injection Hrun as <- <-. exists []. now rewrite app_nil_r.
  - unfold run_tests in *. cbn [iterM] in Hrun.
    destruct (is_soft (f c (heap st)) && writable path) eqn:Hgo.
    + apply andb_prop in Hgo as [Hc Hw].
      rewrite (bind_ok _ _ _ _ _ (run_one_soft name path f c st Hc Hw)) in Hrun.
      destruct (IH _ _ _ Hrun) as (more & Hmore).
      cbn [trace] in Hmore. rewrite <- app_assoc in Hmore. eauto.
    + destruct (run_one_stops name path f c st Hgo) as (e & ls & Hone & _).
      rewrite (bind_raise _ _ _ _ _ Hone) in Hrun. injection Hrun as <- <-.
      cbn [trace]. eauto.
Qed.

Lemma run_one_unwritable (name path : string) (f : test_fn) (c : AvaConfig)
    (st : state) :
  is_soft (f c (heap st)) = true ->
  writable path = false ->
  one name f (Some path) c st =
    (Raise (OSError path),
     mkState (heap st) (trace st ++ [Print (LRunTest name); CallTest name c])).
Proof.
  unfold is_soft, run_one, write_results. intros Hsoft Hw.
  unfold bind, emit, lift, raise. cbn [heap trace].
  destruct (py_getitem (f c (heap st)) "retcode") as [rc | e]; [| discriminate].
  apply negb_true_iff in Hsoft. rewrite Hsoft, Hw. now rewrite <- app_assoc.
Qed.

Lemma fatal_not_soft (v : pyval) : is_fatal v = true -> is_soft v = false.
Proof.
  unfold is_fatal, is_soft. destruct (py_getitem v "retcode"); [| reflexivity].
  now intros ->.
Qed.

(** The state in which the loop reaches the [i]-th configuration. *)
Lemma run_reaches (name path : string) (f : test_fn) (cs : list AvaConfig)
    (i : nat) (c : AvaConfig) (st st' : state) (r : res unit) :
  tests name f (Some path) cs st = (r, st') ->
  cs !! i = Some c ->
  (length (invoked (trace st)) + i < length (invoked (trace st')))%nat ->
  tests name f (Some path) (c :: drop (S i) cs)
    (mkState (heap st) (trace st ++ flat_map (round name path f (heap st)) (take i cs)))
  = (r, st').
Proof.
  intros Hrun Hc Hi.
  destruct (reached_prefix name path f cs i st st' r Hrun Hi) as (Hsoft & Hw & _).
  rewrite <- (take_drop_middle cs i c Hc) in Hrun at 1.
  rewrite run_tests_soft_prefix in Hrun; [exact Hrun | exact Hsoft |].
  destruct Hw as [-> | Hw]; [left; apply take_0 | now right].
Qed.

(** *** [main] *)

Lemma main_selected (o : Namespace) (st st1 : state) (name : string) (f : test_fn)
    (cs : list AvaConfig) :
  opt_test_list o = false ->
  opt_test o = Some name ->
  registry_lookup name AVA_TESTS = Some f ->
  configs (set_outfile o) st = (Ok cs, st1) ->
  ava_main o st = tests name f (Some (resolve_outfile (opt_outfile o))) cs st1.
Proof.
  intros Hlist Htest Hreg Hcfg. unfold main. rewrite Hlist.
  cbv zeta. rewrite (bind_ok _ _ _ _ _ Hcfg).
  unfold run_selected. cbn [set_outfile opt_test opt_outfile].
  now rewrite Htest, Hreg.
Qed.

(** The state in which the configuration phase of a run ends. *)
Lemma configs_from_start (o : Namespace) (h : list (list string))
    (cs : list AvaConfig) (st1 : state) :
  let devices := get_all_serials (opt_android_serial o) in
  configs (set_outfile o) (start h) = (Ok cs, st1) ->
  invoked (trace st1) = [] /\
  written (trace st1) = [] /\
  configured (trace st1) = map Some devices /\
  In (CallGetAllSerials (opt_android_serial o)) (trace st1) /\
  (devices = [] -> In (Print (LText "No connected devices")) (trace st1)) /\
  map cfg_android_serial cs = map (fun s => get_android_serial (Some s)) devices /\
  Forall (fun c => cfg_dry_run c = opt_dry_run o) cs.
Proof.
  intros devices Hcfg.
  destruct (create_configs_total (set_outfile o) (start h))
    as (cs' & new & Hrun & Hser & Hdry).
  cbn [set_outfile opt_android_serial opt_dry_run] in Hrun, Hser, Hdry.
  fold devices in Hrun, Hser.
  rewrite Hrun in Hcfg. injection Hcfg as <- <-. cbn [trace start app].
  trace_simpl. repeat split; auto.
  - apply in_or_app. left. unfold prologue. apply in_or_app. right. now left.
  - intros Hnone. apply in_or_app. left. unfold prologue. rewrite Hnone. cbn.
    apply in_or_app. right. right. now left.
Qed.

(** A run that invokes the test of the [i]-th configuration reaches it after
    [i] iterations that ended with a write. *)
Lemma main_reaches (o : Namespace) (h : list (list string)) (name : string)
    (f : test_fn) (cs : list AvaConfig) (st1 : state) (i : nat) (c : AvaConfig) :
  opt_test_list o = false ->
  opt_test o = Some name ->
  registry_lookup name AVA_TESTS = Some f ->
  configs (set_outfile o) (start h) = (Ok cs, st1) ->
  cs !! i = Some c ->
  (i < length (invoked (trace (snd (ava_main o (start h))))))%nat ->
  let path := resolve_outfile (opt_outfile o) in
  ava_main o (start h) =
    bind (one name f (Some path) c)
      (fun _ => tests name f (Some path) (drop (S i) cs))
      (mkState (heap st1)
         (trace st1 ++ flat_map (round name path f (heap st1)) (take i cs))).
Proof.
  intros Hlist Htest Hreg Hcfg Hc Hi path.
  destruct (configs_from_start o h cs st1 Hcfg) as (Hinv & _).
  rewrite (main_selected o _ st1 name f cs Hlist Htest Hreg Hcfg) in *.
  fold path in Hi |- *.
  destruct (tests name f (Some path) cs st1) as [r st'] eqn:Hrun. cbn [snd] in Hi.
  pose proof (run_reaches name path f cs i c st1 st' r Hrun Hc) as Hat.
  rewrite Hinv in Hat. now rewrite <- (Hat Hi).
Qed.

(** C1 (as amended). In a run whose selected test is absent from the
    registry, the devices are enumerated and one configuration is built for
    each of them; then the run fails with the assertion error
    "error: unknown test <name>" (exit status 1).  No test function is
    invoked and no outcome is produced or written. *)
Theorem unknown_test_fails_before_invocation (o : Namespace) (h : list (list string))
    (name : string) :
  opt_test_list o = false ->
  opt_test o = Some name ->
  registry_lookup name AVA_TESTS = None ->
  let run := ava_main o (start h) in
  fst run = Raise (AssertionError ("error: unknown test " ++ name)%string) /\
  exit_status (fst run) = 1 /\
  invoked (trace (snd run)) = [] /\
  written (trace (snd run)) = [] /\
  configured (trace (snd run)) = map Some (get_all_serials (opt_android_serial o)).
Proof.
  intros Hlist Htest Hreg run. subst run. unfold main. rewrite Hlist. cbv zeta.
  destruct (create_configs_total (set_outfile o) (start h)) as (cs & new & Hcfg & _).
  rewrite (bind_ok _ _ _ _ _ Hcfg).
  unfold run_selected. cbn [set_outfile opt_test]. rewrite Htest, Hreg.
  destruct (configs_from_start o h cs _ Hcfg) as (Hinv & Hwr & Hconf & _).
  unfold raise. cbn [fst snd]. auto.
Qed.

(** C2 (as amended). The configurations of all devices are built before the
    first test is invoked.  If the test of device [i] is invoked and returns
    an outcome with return code -1, the tests invoked in the run are those
    of devices 0..i and no later one, and the process exits with a nonzero
    status. *)
Theorem fatal_outcome_stops_invocations (o : Namespace) (h : list (list string))
    (name : string) (f : test_fn) (cs : list AvaConfig) (st1 : state)
    (i : nat) (c : AvaConfig) :
  opt_test_list o = false ->
  opt_test o = Some name ->
  registry_lookup name AVA_TESTS = Some f ->
  configs (set_outfile o) (start h) = (Ok cs, st1) ->
  let run := ava_main o (start h) in
  cs !! i = Some c ->
  (i < length (invoked (trace (snd run))))%nat ->
  is_fatal (f c (heap st1)) = true ->
  configured (trace st1) = map Some (get_all_serials (opt_android_serial o)) /\
  invoked (trace st1) = [] /\
  configured (trace (snd run)) = configured (trace st1) /\
  invoked (trace (snd run)) = take (S i) cs /\
  exit_status (fst run) <> 0.
Proof.
  intros Hlist Htest Hreg Hcfg run Hc Hi Hfatal. subst run.
  destruct (configs_from_start o h cs st1 Hcfg) as (Hinv & Hwr & Hconf & _).
  rewrite (main_selected o _ st1 name f cs Hlist Htest Hreg Hcfg) in *.
  set (path := resolve_outfile (opt_outfile o)) in *.
  destruct (tests name f (Some path) cs st1) as [r st'] eqn:Hrun. cbn [fst snd] in *.
  pose proof (run_reaches name path f cs i c st1 st' r Hrun Hc) as Hat.
  rewrite Hinv in Hat. specialize (Hat Hi).
  unfold run_tests in Hat. cbn [iterM] in Hat.
  match type of Hat with bind _ _ ?s = _ => set (st2 := s) in * end.
  assert (Hstop : is_soft (f c (heap st2)) && writable path = false)
    by (cbn [heap st2]; now rewrite (fatal_not_soft _ Hfatal)).
  destruct (run_one_stops name path f c st2 Hstop) as (e & ls & Hone & He).
  rewrite (bind_raise _ _ _ _ _ Hone) in Hat. injection Hat as <- <-.
  cbn [trace heap st2]. trace_simpl. rewrite Hinv, Hconf.
  repeat split; auto.
  cbn [app]. now rewrite (take_S_r cs i c Hc).
Qed.

(** C3. When the test invoked for a device returns a fatal outcome (a
    dictionary whose return code is -1, with a well-formed nested result
    list if it has one), the run prints the backtrace of the outcome, or the
    placeholder "No backtrace" when the outcome has none; then the nested
    sub-results whose own return code is not 0 and only those, in order, if
    the outcome carries a nested result list, and the whole outcome
    otherwise; and it ends there with [sys.exit(-1)], exit status 255. *)
Theorem fatal_outcome_report (o : Namespace) (h : list (list string))
    (name : string) (f : test_fn) (cs : list AvaConfig) (st1 : state)
    (i : nat) (c : AvaConfig) (d : list (string * pyval)) :
  opt_test_list o = false ->
  opt_test o = Some name ->
  registry_lookup name AVA_TESTS = Some f ->
  configs (set_outfile o) (start h) = (Ok cs, st1) ->
  let run := ava_main o (start h) in
  let path := resolve_outfile (opt_outfile o) in
  cs !! i = Some c ->
  (i < length (invoked (trace (snd run))))%nat ->
  f c (heap st1) = PDict d ->
  is_fatal (PDict d) = true ->
  well_nested d = true ->
  fst run = Raise (SystemExit (-1)) /\
  exit_status (fst run) = 255 /\
  trace (snd run) =
    trace st1 ++ flat_map (round name path f (heap st1)) (take i cs) ++
    Print (LRunTest name) :: CallTest name c :: map Print (fatal_report d).
Proof.
  intros Hlist Htest Hreg Hcfg run path Hc Hi Hv Hfatal Hwf. subst run.
  rewrite (main_reaches o h name f cs st1 i c Hlist Htest Hreg Hcfg Hc Hi).
  fold path.
  match goal with |- context [bind _ _ ?s] => set (st2 := s) end.
  assert (Hone : one name f (Some path) c st2 =
            (Raise (SystemExit (-1)),
             mkState (heap st2)
               (trace st2 ++ Print (LRunTest name) :: CallTest name c ::
                  map Print (fatal_report d)))).
  { rewrite run_one_fatal by (cbn [heap st2]; now rewrite Hv).
    cbn [heap st2]. rewrite Hv, (report_fatal_exact d _ Hwf).
    cbn [heap trace]. now rewrite <- app_assoc. }
  rewrite (bind_raise _ _ _ _ _ Hone). cbn [fst snd trace st2].
  rewrite <- app_assoc. auto.
Qed.

(** C10. The lookup of ["retcode"] is unguarded.  (1) If the test invoked
    for a device returns a dictionary without that key, the run ends with
    an uncaught [KeyError] right after the invocation: nothing is printed
    about the outcome and nothing is written.  (2) If a fatal outcome has a
    nested result list with a sub-result (a dictionary) without the key, the
    run ends with an uncaught [KeyError] as well, after the backtrace and
    the failing sub-results that precede it in the list.  (3) When the keys
    are present (the outcome has a return code and, if fatal, a well-formed
    nested list), an iteration is left without a lookup error: normally, by
    [sys.exit(-1)], or by a failed [open]. *)
Theorem retcode_lookup_unguarded (o : Namespace) (h : list (list string))
    (name : string) (f : test_fn) (cs : list AvaConfig) (st1 : state)
    (i : nat) (c : AvaConfig) (d : list (string * pyval)) :
  opt_test_list o = false ->
  opt_test o = Some name ->
  registry_lookup name AVA_TESTS = Some f ->
  configs (set_outfile o) (start h) = (Ok cs, st1) ->
  let run := ava_main o (start h) in
  let path := resolve_outfile (opt_outfile o) in
  cs !! i = Some c ->
  (i < length (invoked (trace (snd run))))%nat ->
  f c (heap st1) = PDict d ->
  (dict_lookup "retcode" d = None ->
     fst run = Raise (KeyError "retcode") /\
     exit_status (fst run) = 1 /\
     trace (snd run) =
       trace st1 ++ flat_map (round name path f (heap st1)) (take i cs) ++
       [Print (LRunTest name); CallTest name c]) /\
  (forall (s1 s2 : list pyval) (bad : list (string * pyval)),
     is_fatal (PDict d) = true ->
     dict_lookup "results" d = Some (PList (s1 ++ PDict bad :: s2)) ->
     forallb has_retcode s1 = true ->
     dict_lookup "retcode" bad = None ->
     fst run = Raise (KeyError "retcode") /\
     exit_status (fst run) = 1 /\
     printed (trace (snd run)) =
       printed (trace st1) ++ map (fun _ => LRunTest name) (take i cs) ++
       LRunTest name ::
       LBacktrace (default (PStr "No backtrace") (dict_lookup "backtrace" d)) ::
       map LValue (List.filter is_failure s1)) /\
  (has_retcode (PDict d) = true ->
     (is_fatal (PDict d) = true -> well_nested d = true) ->
     forall st : state,
       heap st = heap st1 ->
       let r := fst (one name f (Some path) c st) in
       r = Ok tt \/ r = Raise (SystemExit (-1)) \/ r = Raise (OSError path)).
Proof.
  intros Hlist Htest Hreg Hcfg run path Hc Hi Hv. subst run.
  rewrite (main_reaches o h name f cs st1 i c Hlist Htest Hreg Hcfg Hc Hi).
  fold path.
  match goal with |- context [bind _ _ ?s] => set (st2 := s) end.
  split; [| split].
  - intros Hd.
    rewrite (bind_raise _ _ _ _ _ (run_one_missing name path f c st2 d Hv Hd)).
    cbn [fst snd trace st2]. rewrite <- app_assoc. auto.
  - intros s1 s2 bad Hfatal Hres Hs1 Hbad.
    assert (Hone : one name f (Some path) c st2 =
              (Raise (KeyError "retcode"),
               mkState (heap st2)
                 (trace st2 ++ [Print (LRunTest name); CallTest name c] ++
                    Print (LBacktrace (default (PStr "No backtrace")
                                         (dict_lookup "backtrace" d))) ::
                    map (fun s => Print (LValue s)) (List.filter is_failure s1)))).
    { rewrite run_one_fatal by (cbn [heap st2]; now rewrite Hv).
      cbn [heap st2]. rewrite Hv, (report_fatal_missing d bad s1 s2 _ Hres Hs1 Hbad).
      cbn [heap trace]. now rewrite <- app_assoc. }
    rewrite (bind_raise _ _ _ _ _ Hone). cbn [fst snd trace st2].
    repeat split; auto.
    rewrite !printed_app, printed_rounds. cbn [printed flat_map app].
    rewrite <- map_map with (f := LValue) (g := Print), printed_prints.
    now rewrite <- app_assoc.
  - intros Hrc Hnested st Hst r. subst r.
    destruct (is_fatal (PDict d)) eqn:Hfatal.
    + right. left.
      rewrite run_one_fatal by (now rewrite Hst, Hv).
      rewrite Hst, Hv, (report_fatal_exact d _ (Hnested eq_refl)). reflexivity.
    + destruct (writable path) eqn:Hw.
      * left. rewrite run_one_soft; auto. rewrite Hst, Hv.
        unfold is_soft, is_fatal, has_retcode in *.
        destruct (py_getitem (PDict d) "retcode"); [| discriminate].
        now rewrite Hfatal.
      * right. right. unfold run_one, write_results.
        unfold bind, emit, lift. cbn [heap trace]. rewrite Hst, Hv.
        unfold is_fatal, has_retcode in *.
        destruct (py_getitem (PDict d) "retcode"); [| discriminate].
        now rewrite Hfatal, Hw.
Qed.

(** C4 (as amended). When the test invoked for device [i] returns an
    outcome whose return code is not -1 (0 or a soft failure) and the output
    destination can be opened for writing, the outcome is written to the
    destination and the test of the next device, if there is one, is
    invoked.  If every outcome of the run is of that kind, the run returns
    normally and the exit status is 0, whatever the return codes. *)
Theorem soft_outcome_written_and_continues (o : Namespace) (h : list (list string))
    (name : string) (f : test_fn) (cs : list AvaConfig) (st1 : state)
    (i : nat) (c : AvaConfig) :
  opt_test_list o = false ->
  opt_test o = Some name ->
  registry_lookup name AVA_TESTS = Some f ->
  configs (set_outfile o) (start h) = (Ok cs, st1) ->
  let run := ava_main o (start h) in
  let path := resolve_outfile (opt_outfile o) in
  cs !! i = Some c ->
  (i < length (invoked (trace (snd run))))%nat ->
  is_soft (f c (heap st1)) = true ->
  writable path = true ->
  In (path, f c (heap st1)) (written (trace (snd run))) /\
  invoked (trace (snd run)) !! S i = cs !! S i /\
  (forallb (fun c' => is_soft (f c' (heap st1))) cs = true ->
   fst run = Ok tt /\ exit_status (fst run) = 0).
Proof.
  intros Hlist Htest Hreg Hcfg run path Hc Hi Hsoft Hw. subst run.
  destruct (configs_from_start o h cs st1 Hcfg) as (Hinv & Hwr & _).
  split; [| split].
  - rewrite (main_reaches o h name f cs st1 i c Hlist Htest Hreg Hcfg Hc Hi).
    fold path.
    match goal with |- context [bind _ _ ?s] => set (st2 := s) end.
    rewrite (bind_ok _ _ _ _ _ (run_one_soft name path f c st2 Hsoft Hw)).
    match goal with |- context [tests _ _ _ _ ?s] => set (st3 := s) end.
    destruct (tests name f (Some path) (drop (S i) cs) st3) as [r st'] eqn:Hrun.
    destruct (run_tests_invoked name path f _ _ _ _ Hrun) as (k & w & _ & _ & _ & Hwritten).
    cbn [snd]. rewrite Hwritten. apply in_or_app. left.
    cbn [trace st3 st2 heap]. rewrite !written_app. apply in_or_app. right.
    cbn. now left.
  - rewrite (main_reaches o h name f cs st1 i c Hlist Htest Hreg Hcfg Hc Hi).
    fold path.
    match goal with |- context [bind _ _ ?s] => set (st2 := s) end.
    rewrite (bind_ok _ _ _ _ _ (run_one_soft name path f c st2 Hsoft Hw)).
    match goal with |- context [tests _ _ _ _ ?s] => set (st3 := s) end.
    destruct (tests name f (Some path) (drop (S i) cs) st3) as [r st'] eqn:Hrun.
    destruct (run_tests_invoked name path f _ _ _ _ Hrun) as (k & w & Hinvoked & Hk & _).
    cbn [snd]. rewrite Hinvoked.
    cbn [trace st3 st2 heap]. rewrite !invoked_app, invoked_rounds, Hinv.
    cbn [app invoked flat_map round].
    assert (Hlen : length (take i cs) = i).
    { apply length_take_le. apply lookup_lt_Some in Hc. lia. }
    rewrite <- app_assoc. cbn [app].
    rewrite lookup_app_r by lia. rewrite Hlen.
    replace (S i - i)%nat with 1%nat by lia. cbn [lookup list_lookup].
    destruct (drop (S i) cs) as [| c' rest] eqn:Hdrop.
    + rewrite take_nil. cbn.
      symmetry. apply lookup_ge_None. rewrite <- (take_drop (S i) cs), Hdrop, app_nil_r.
      rewrite length_take. lia.
    + destruct Hk as [Hnil | Hk]; [discriminate |].
      destruct k as [| k]; [lia |].
      cbn [take lookup list_lookup].
      rewrite <- (take_drop (S i) cs), Hdrop.
      rewrite lookup_app_r by (rewrite length_take; lia).
      rewrite length_take.
      replace (S i - (S i `min` length cs))%nat with 0%nat
        by (apply lookup_lt_Some in Hc; lia).
      reflexivity.
  - intros Hall.
    rewrite (main_selected o _ st1 name f cs Hlist Htest Hreg Hcfg). fold path.
    rewrite run_tests_all_soft; auto.
Qed.

(** C6. A run in which no device is discovered (and whose selected test, if
    any, is registered: the check of the test name comes first, in the
    specification as in the code) prints "No connected devices", builds no
    configuration, invokes no test, writes nothing, and returns normally:
    the exit status is 0. *)
Theorem no_devices_run_completes (o : Namespace) (h : list (list string)) :
  opt_test_list o = false ->
  get_all_serials (opt_android_serial o) = [] ->
  selection_known AVA_TESTS o = true ->
  let run := ava_main o (start h) in
  fst run = Ok tt /\
  exit_status (fst run) = 0 /\
  In (Print (LText "No connected devices")) (trace (snd run)) /\
  configured (trace (snd run)) = [] /\
  invoked (trace (snd run)) = [] /\
  written (trace (snd run)) = [] /\
  heap (snd run) = h.
Proof.
  intros Hlist Hdev Hknown run. subst run.
  unfold main. rewrite Hlist. cbv zeta.
  destruct (create_configs_total (set_outfile o) (start h))
    as (cs & new & Hcfg & Hser & _).
  destruct (configs_from_start o h cs _ Hcfg) as (Hinv & Hwr & Hconf & _ & Hmsg & _).
  cbn [set_outfile opt_android_serial] in Hser. rewrite Hdev in Hser, Hconf.
  destruct cs; [| discriminate].
  rewrite (bind_ok _ _ _ _ _ Hcfg).
  assert (Hnew : new = []).
  { unfold create_configs in Hcfg. cbn [set_outfile opt_android_serial] in Hcfg.
    rewrite Hdev in Hcfg. unfold bind, emit, ret, build_configs in Hcfg.
    destruct (0 <? _) in Hcfg; cbn in Hcfg; injection Hcfg as Hheap _;
      symmetry in Hheap; apply app_inv_head with (l := h);
      now rewrite app_nil_r. }
  unfold selection_known in Hknown. unfold run_selected.
  cbn [set_outfile opt_test opt_outfile].
  destruct (opt_test o) as [name |].
  - destruct (registry_lookup name AVA_TESTS) as [f |]; [| discriminate].
    cbn. unfold ret. cbn [fst snd heap]. rewrite Hnew, app_nil_r.
    repeat split; auto.
  - unfold ret. cbn [fst snd heap]. rewrite Hnew, app_nil_r.
    repeat split; auto.
Qed.


(** C8. In a run with the dry-run flag set, the devices are enumerated and
    one configuration is built for each of them, as without the flag, and the
    flag is set in every configuration built and in every configuration
    handed to a test. *)
Theorem dry_run_propagated (o : Namespace) (h : list (list string)) :
  opt_test_list o = false ->
  opt_dry_run o = true ->
  let run := ava_main o (start h) in
  let devices := get_all_serials (opt_android_serial o) in
  In (CallGetAllSerials (opt_android_serial o)) (trace (snd run)) /\
  configured (trace (snd run)) = map Some devices /\
  Forall (fun c => cfg_dry_run c = true) (invoked (trace (snd run))) /\
  exists cs st1,
    configs (set_outfile o) (start h) = (Ok cs, st1) /\
    length cs = length devices /\
    Forall (fun c => cfg_dry_run c = true) cs.
Proof.
  intros Hlist Hdry run devices. subst run.
  destruct (create_configs_total (set_outfile o) (start h)) as (cs & new & Hcfg & _).
  match type of Hcfg with _ = (_, ?s) => set (st1 := s) in * end.
  destruct (configs_from_start o h cs st1 Hcfg)
    as (Hinv & _ & Hconf & Henum & _ & Hser & Hall).
  fold devices in Hconf, Hser. rewrite Hdry in Hall.
  assert (Hlen : length cs = length devices).
  { rewrite <- (length_map cfg_android_serial), Hser. apply length_map. }
  unfold main. rewrite Hlist. cbv zeta. rewrite (bind_ok _ _ _ _ _ Hcfg).
  unfold run_selected. cbn [set_outfile opt_test opt_outfile].
  destruct (opt_test o) as [name |].
  - destruct (registry_lookup name AVA_TESTS) as [f |].
    + set (path := resolve_outfile (opt_outfile o)).
      destruct (tests name f (Some path) cs st1) as [r st'] eqn:Hrun.
      destruct (run_tests_invoked name path f _ _ _ _ Hrun)
        as (k & w & Hinvoked & _ & Hconfigured & _).
      destruct (run_tests_trace_grows name path f _ _ _ _ Hrun) as (more & Hmore).
      cbn [snd]. rewrite Hinvoked, Hconfigured, Hinv, Hmore. cbn [app].
      repeat split; eauto.
      * apply in_or_app. now left.
      * now apply Forall_take.
    + unfold raise. cbn [snd]. rewrite Hinv. repeat split; eauto.
  - unfold ret. cbn [snd]. rewrite Hinv. repeat split; eauto.
Qed.

(** C9 (as amended). In a run that has an outcome to write (a registered
    test is selected, a device is found, and the outcome of the first device
    has a return code other than -1), a destination that cannot be opened
    for writing makes [open] raise an [OSError] that nothing catches: it
    leaves [main], the exit status is 1, nothing is written and no other
    device is tested. *)
Theorem unwritable_destination_raises (o : Namespace) (h : list (list string))
    (name : string) (f : test_fn) (c : AvaConfig) (cs : list AvaConfig)
    (st1 : state) :
  opt_test_list o = false ->
  opt_test o = Some name ->
  registry_lookup name AVA_TESTS = Some f ->
  configs (set_outfile o) (start h) = (Ok (c :: cs), st1) ->
  let run := ava_main o (start h) in
  let path := resolve_outfile (opt_outfile o) in
  is_soft (f c (heap st1)) = true ->
  writable path = false ->
  fst run = Raise (OSError path) /\
  exit_status (fst run) = 1 /\
  written (trace (snd run)) = [] /\
  invoked (trace (snd run)) = [c].
Proof.
  intros Hlist Htest Hreg Hcfg run path Hsoft Hw. subst run.
  destruct (configs_from_start o h _ st1 Hcfg) as (Hinv & Hwr & _).
  rewrite (main_selected o _ st1 name f _ Hlist Htest Hreg Hcfg). fold path.
  unfold run_tests. cbn [iterM].
  rewrite (bind_raise _ _ _ _ _ (run_one_unwritable name path f c st1 Hsoft Hw)).
  cbn [fst snd trace]. rewrite invoked_app, written_app, Hinv, Hwr. auto.
Qed.

End Orchestrator.

(** ** The scenarios of the specification, run on the model *)

(** Registry [{"ping": f}] with outcomes 0 for "A" and 1 for "B": both tests
    are invoked, both outcomes are written, the exit status is 0. *)
Example ping_scenario :
  let run := Scenario.run Scenario.serials Scenario.all_writable (Scenario.options "ping") in
  fst run = Ok tt /\
  exit_status (fst run) = 0 /\
  invoked (trace (snd run)) = [Scenario.cfg "A" 0%nat "ping"; Scenario.cfg "B" 1%nat "ping"] /\
  written (trace (snd run)) =
    [("out.json", Scenario.retcode_is 0); ("out.json", Scenario.retcode_is 1)].
Proof. vm_compute. repeat split. Qed.

(** Outcome [{"retcode": -1, "backtrace": "boom"}] for "A": the test of "B"
    is never invoked, "boom" is printed, the exit status is 255. *)
Example boom_scenario :
  let run := Scenario.run Scenario.serials Scenario.all_writable (Scenario.options "boom") in
  fst run = Raise (SystemExit (-1)) /\
  exit_status (fst run) = 255 /\
  invoked (trace (snd run)) = [Scenario.cfg "A" 0%nat "boom"] /\
  printed (trace (snd run)) =
    [LRunTest "boom"; LBacktrace (PStr "boom");
     LValue (PDict [("retcode", PInt (-1)); ("backtrace", PStr "boom")])].
Proof. vm_compute. repeat split. Qed.

(** No device and an unregistered test: the check of the test name does
    not depend on the devices, the run fails with the assertion error. *)
Example no_devices_unknown_test_fails :
  let run := Scenario.run Scenario.no_serials Scenario.all_writable (Scenario.options "nope") in
  Scenario.no_serials None = [] /\
  In (Print (LText "No connected devices")) (trace (snd run)) /\
  fst run = Raise (AssertionError "error: unknown test nope") /\
  exit_status (fst run) <> 0.
Proof. vm_compute. repeat split; [auto | discriminate]. Qed.

(** ** Counterexamples to the claims that the code does not satisfy *)

(** C1, as stated, fails: with devices "A" and "B" and the unregistered test
    "nope", the run fails with the unknown-test assertion only after the
    configurations of both devices were built. *)
Lemma unknown_test_configs_built :
  let run := Scenario.run Scenario.serials Scenario.all_writable (Scenario.options "nope") in
  registry_lookup "nope" Scenario.registry = None /\
  fst run = Raise (AssertionError "error: unknown test nope") /\
  trace (snd run) =
    [CallGetAllSerials None; CallGetAndroidSerial (Some "A");
     CallGetAndroidSerial (Some "B")] /\
  configured (trace (snd run)) <> [].
Proof. vm_compute. repeat split. discriminate. Qed.

(** C2, as stated, fails: the outcome of device "A" (index 0) is fatal, and
    yet the configuration of device "B" (index 1) was built, before the test
    of "A" was even invoked. *)
Lemma later_config_built_before_fatal :
  let run := Scenario.run Scenario.serials Scenario.all_writable (Scenario.options "boom") in
  let cA := Scenario.cfg "A" 0%nat "boom" in
  is_fatal (Scenario.boom cA [[Scenario.input]; [Scenario.input]]) = true /\
  trace (snd run) =
    [CallGetAllSerials None; CallGetAndroidSerial (Some "A");
     CallGetAndroidSerial (Some "B"); Print (LRunTest "boom"); CallTest "boom" cA;
     Print (LBacktrace (PStr "boom"));
     Print (LValue (PDict [("retcode", PInt (-1)); ("backtrace", PStr "boom")]))] /\
  configured (trace (snd run)) <> [Some "A"].
Proof. vm_compute. repeat split. discriminate. Qed.

(** C4, as stated, fails: the outcome of device "A" has return code 0, but
    the destination cannot be opened; the outcome is not written, the test of
    device "B" is not invoked and the exit status is 1. *)
Lemma soft_outcome_lost_when_unwritable :
  let run := Scenario.run Scenario.serials Scenario.none_writable (Scenario.options "ping") in
  let cA := Scenario.cfg "A" 0%nat "ping" in
  is_soft (Scenario.ping cA [[Scenario.input]; [Scenario.input]]) = true /\
  fst run = Raise (OSError "out.json") /\
  exit_status (fst run) = 1 /\
  written (trace (snd run)) = [] /\
  invoked (trace (snd run)) = [cA].
Proof. vm_compute. repeat split. Qed.


(** C9, as stated, fails: the destination cannot be opened, but no device is
    discovered; nothing is written, no error is raised and the exit status
    is 0. *)
Lemma unwritable_destination_unnoticed :
  let run := Scenario.run Scenario.no_serials Scenario.none_writable (Scenario.options "ping") in
  Scenario.none_writable "out.json" = false /\
  fst run = Ok tt /\
  exit_status (fst run) = 0.
Proof. vm_compute. repeat split. Qed.

(** ** The theorems at concrete inputs *)

Lemma sibling_configs_deep_copied_witness :
  let st := mkState [["a.mp4"; "b.mp4"]] [] in
  ("A" <> "B" /\ is_Some (heap st !! 0%nat)) /\
  exists c1 st1 c2 st2,
    build_config Scenario.same_serial Scenario.input Scenario.list_options "A" st
      = (Ok c1, st1) /\
    build_config Scenario.same_serial Scenario.input Scenario.list_options "B" st1
      = (Ok c2, st2) /\
    cfg_infile_list c1 = FList 1%nat /\
    cfg_infile_list c2 = FList 2%nat /\
    same_except_serial (heap st2) c1 c2 /\
    independent (heap st2) (cfg_infile_list c1) (cfg_infile_list c2).
Proof.
  intros st.
  assert (Hne : "A" <> "B") by discriminate.
  assert (Hlive : forall l, opt_infile_list Scenario.list_options = FList l ->
                            is_Some (heap st !! l)).
  { intros l [= <-]. now exists ["a.mp4"; "b.mp4"]. }
  split; [split; [exact Hne | exact (Hlive 0%nat eq_refl)] |].
  destruct (sibling_configs_deep_copied Scenario.same_serial Scenario.input
              Scenario.list_options "A" "B" st Hne Hlive)
    as (c1 & st1 & c2 & st2 & H1 & H2 & _ & _ & Hsame & _ & _ & Hind & _).
  exists c1, st1, c2, st2.
  pose proof H1 as H1'. vm_compute in H1'. injection H1' as <- <-.
  pose proof H2 as H2'. vm_compute in H2'. injection H2' as <- <-.
  repeat split; try exact H1; try exact H2; try apply Hsame; try exact Hind.
Defined.

Lemma unknown_test_fails_before_invocation_witness :
  let o := Scenario.options "nope" in
  let run := Scenario.run Scenario.serials Scenario.all_writable o in
  (opt_test_list o = false /\ opt_test o = Some "nope" /\
   registry_lookup "nope" Scenario.registry = None) /\
  fst run = Raise (AssertionError "error: unknown test nope") /\
  invoked (trace (snd run)) = [] /\
  written (trace (snd run)) = [] /\
  configured (trace (snd run)) = [Some "A"; Some "B"].
Proof.
  intros o run. split; [repeat split |].
  destruct (unknown_test_fails_before_invocation Scenario.serials
              Scenario.same_serial Scenario.registry Scenario.all_writable
              Scenario.input o [] "nope" eq_refl eq_refl eq_refl)
    as (Hr & _ & Hinv & Hwr & Hconf).
  repeat split; assumption.
Defined.

Lemma fatal_outcome_stops_invocations_witness :
  let o := Scenario.options "boom" in
  let run := Scenario.run Scenario.serials Scenario.all_writable o in
  let cA := Scenario.cfg "A" 0%nat "boom" in
  let cB := Scenario.cfg "B" 1%nat "boom" in
  (create_configs Scenario.serials Scenario.same_serial Scenario.input
     (set_outfile o) (start []) = (Ok [cA; cB], Scenario.configured_AB) /\
   (0 < length (invoked (trace (snd run))))%nat /\
   is_fatal (Scenario.boom cA (heap Scenario.configured_AB)) = true) /\
  configured (trace Scenario.configured_AB) = [Some "A"; Some "B"] /\
  invoked (trace (snd run)) = [cA] /\
  exit_status (fst run) <> 0.
Proof.
  intros o run cA cB.
  assert (Hi : (0 < length (invoked (trace (snd run))))%nat) by (vm_compute; lia).
  split; [repeat split; exact Hi |].
  destruct (fatal_outcome_stops_invocations Scenario.serials
              Scenario.same_serial Scenario.registry Scenario.all_writable
              Scenario.input o [] "boom" Scenario.boom [cA; cB]
              Scenario.configured_AB 0%nat cA
              eq_refl eq_refl eq_refl eq_refl eq_refl Hi eq_refl)
    as (Hconf & _ & _ & Hinv & Hexit).
  repeat split; assumption.
Defined.

Lemma fatal_outcome_report_witness :
  let o := Scenario.options "nested" in
  let run := Scenario.run Scenario.serials Scenario.all_writable o in
  let cA := Scenario.cfg "A" 0%nat "nested" in
  let cB := Scenario.cfg "B" 1%nat "nested" in
  ((0 < length (invoked (trace (snd run))))%nat /\
   is_fatal (PDict Scenario.nested_outcome) = true /\
   well_nested Scenario.nested_outcome = true) /\
  fst run = Raise (SystemExit (-1)) /\
  exit_status (fst run) = 255 /\
  trace (snd run) =
    trace Scenario.configured_AB ++
    [Print (LRunTest "nested"); CallTest "nested" cA;
     Print (LBacktrace (PStr "No backtrace"));
     Print (LValue (Scenario.retcode_is 2)); Print (LValue (Scenario.retcode_is 3))].
Proof.
  intros o run cA cB.
  assert (Hi : (0 < length (invoked (trace (snd run))))%nat) by (vm_compute; lia).
  split; [repeat split; exact Hi |].
  exact (fatal_outcome_report Scenario.serials
           Scenario.same_serial Scenario.registry Scenario.all_writable
           Scenario.input o [] "nested" Scenario.nested [cA; cB]
           Scenario.configured_AB 0%nat cA Scenario.nested_outcome
           eq_refl eq_refl eq_refl eq_refl eq_refl Hi eq_refl eq_refl eq_refl).
Defined.

Lemma soft_outcome_written_and_continues_witness :
  let o := Scenario.options "ping" in
  let run := Scenario.run Scenario.serials Scenario.all_writable o in
  let cA := Scenario.cfg "A" 0%nat "ping" in
  let cB := Scenario.cfg "B" 1%nat "ping" in
  ((0 < length (invoked (trace (snd run))))%nat /\
   is_soft (Scenario.ping cA (heap Scenario.configured_AB)) = true /\
   Scenario.all_writable "out.json" = true) /\
  In ("out.json", Scenario.retcode_is 0) (written (trace (snd run))) /\
  invoked (trace (snd run)) !! 1%nat = Some cB /\
  exit_status (fst run) = 0.
Proof.
  intros o run cA cB.
  assert (Hi : (0 < length (invoked (trace (snd run))))%nat) by (vm_compute; lia).
  split; [repeat split; exact Hi |].
  destruct (soft_outcome_written_and_continues Scenario.serials
              Scenario.same_serial Scenario.registry Scenario.all_writable
              Scenario.input o [] "ping" Scenario.ping [cA; cB]
              Scenario.configured_AB 0%nat cA
              eq_refl eq_refl eq_refl eq_refl eq_refl Hi eq_refl eq_refl)
    as (Hwr & Hnext & Hexit).
  split; [exact Hwr | split; [exact Hnext | exact (proj2 (Hexit eq_refl))]].
Defined.

Lemma no_devices_run_completes_witness :
  let o := Scenario.options "ping" in
  let run := Scenario.run Scenario.no_serials Scenario.all_writable o in
  (opt_test_list o = false /\ Scenario.no_serials (opt_android_serial o) = [] /\
   selection_known Scenario.registry o = true) /\
  fst run = Ok tt /\
  exit_status (fst run) = 0 /\
  In (Print (LText "No connected devices")) (trace (snd run)) /\
  invoked (trace (snd run)) = [].
Proof.
  intros o run. split; [repeat split |].
  destruct (no_devices_run_completes Scenario.no_serials
              Scenario.same_serial Scenario.registry Scenario.all_writable
              Scenario.input o [] eq_refl eq_refl eq_refl)
    as (Hr & Hexit & Hmsg & _ & Hinv & _).
  repeat split; assumption.
Defined.


Lemma dry_run_propagated_witness :
  let o := Scenario.dry_options in
  let run := Scenario.run Scenario.serials Scenario.all_writable o in
  (opt_test_list o = false /\ opt_dry_run o = true) /\
  In (CallGetAllSerials None) (trace (snd run)) /\
  configured (trace (snd run)) = [Some "A"; Some "B"] /\
  length (invoked (trace (snd run))) = 2%nat /\
  Forall (fun c => cfg_dry_run c = true) (invoked (trace (snd run))).
Proof.
  intros o run. split; [repeat split |].
  destruct (dry_run_propagated Scenario.serials
              Scenario.same_serial Scenario.registry Scenario.all_writable
              Scenario.input o [] eq_refl eq_refl)
    as (Henum & Hconf & Hdry & _).
  repeat split; try assumption.
Defined.

Lemma unwritable_destination_raises_witness :
  let o := Scenario.options "ping" in
  let run := Scenario.run Scenario.serials Scenario.none_writable o in
  let cA := Scenario.cfg "A" 0%nat "ping" in
  let cB := Scenario.cfg "B" 1%nat "ping" in
  (is_soft (Scenario.ping cA (heap Scenario.configured_AB)) = true /\
   Scenario.none_writable "out.json" = false) /\
  fst run = Raise (OSError "out.json") /\
  exit_status (fst run) = 1 /\
  written (trace (snd run)) = [] /\
  invoked (trace (snd run)) = [cA].
Proof.
  intros o run cA cB. split; [repeat split |].
  exact (unwritable_destination_raises Scenario.serials
           Scenario.same_serial Scenario.registry Scenario.none_writable
           Scenario.input o [] "ping" Scenario.ping cA [cB]
           Scenario.configured_AB
           eq_refl eq_refl eq_refl eq_refl eq_refl eq_refl).
Defined.

Lemma retcode_lookup_unguarded_witness :
  let o := Scenario.options "keyless" in
  let run := Scenario.run Scenario.serials Scenario.all_writable o in
  let cA := Scenario.cfg "A" 0%nat "keyless" in
  let cB := Scenario.cfg "B" 1%nat "keyless" in
  ((0 < length (invoked (trace (snd run))))%nat /\
   dict_lookup "retcode" [("status", PStr "done")] = None) /\
  fst run = Raise (KeyError "retcode") /\
  exit_status (fst run) = 1 /\
  trace (snd run) =
    trace Scenario.configured_AB ++
    [Print (LRunTest "keyless"); CallTest "keyless" cA].
Proof.
  intros o run cA cB.
  assert (Hi : (0 < length (invoked (trace (snd run))))%nat) by (vm_compute; lia).
  split; [repeat split; exact Hi |].
  destruct (retcode_lookup_unguarded Scenario.serials
              Scenario.same_serial Scenario.registry Scenario.all_writable
              Scenario.input o [] "keyless" Scenario.keyless [cA; cB]
              Scenario.configured_AB 0%nat cA [("status", PStr "done")]
              eq_refl eq_refl eq_refl eq_refl eq_refl Hi eq_refl)
    as (Hmissing & _).
  exact (Hmissing eq_refl).
Defined.

(** ** Further properties of the code *)

Section Coverage.

Variable get_all_serials : option string -> list string.
Variable get_android_serial : option string -> option string.
Variable AVA_TESTS : list (string * test_fn).
Variable writable : string -> bool.
Variable TEST_INPUT_MP4 : string.

Local Abbreviation build := (build_config get_android_serial TEST_INPUT_MP4).
Local Abbreviation builds := (build_configs get_android_serial TEST_INPUT_MP4).
Local Abbreviation configs :=
  (create_configs get_all_serials get_android_serial TEST_INPUT_MP4).
Local Abbreviation tests := (run_tests writable).
Local Abbreviation one := (run_one writable).
Local Abbreviation ava_main :=
  (main get_all_serials get_android_serial AVA_TESTS writable TEST_INPUT_MP4).

Lemma loop_event_prints (ls : list line) :
  forallb report_line ls = true -> forallb loop_event (map Print ls) = true.
Proof.
  induction ls as [| l ls IH]; [reflexivity |].
  cbn. intros H. apply andb_prop in H as [Hl Hls].
  rewrite (IH Hls), andb_true_r. now destruct l.
Qed.

Lemma print_failed_lines (items : list pyval) (st : state) :
  exists r ls,
    iterM print_failed items st = (r, mkState (heap st) (trace st ++ map Print ls)) /\
    forallb report_line ls = true /\
    (r = Ok tt \/ r = Raise (KeyError "retcode") \/ r = Raise TypeError).
Proof.
  revert st. induction items as [| s items IH]; intros st.
  - exists (Ok tt), []. cbn. unfold ret. rewrite app_nil_r. destruct st; auto.
  - cbn [iterM]. unfold bind at 1. unfold print_failed at 1. unfold bind, lift.
    destruct (py_getitem s "retcode") as [rc | e] eqn:Hget.
    + destruct (negb (py_eq_int rc 0)).
      * destruct (IH (mkState (heap st) (trace st ++ [Print (LValue s)])))
          as (r & ls & Hrun & Hls & Hr).
        exists r, (LValue s :: ls). unfold emit. rewrite Hrun.
        cbn [heap trace map forallb report_line]. rewrite <- app_assoc. auto.
      * destruct (IH st) as (r & ls & Hrun & Hls & Hr).
        exists r, ls. unfold ret. auto.
    + exists (Raise e), []. cbn [map]. rewrite app_nil_r.
      split; [now destruct st |]. split; [reflexivity |].
      unfold py_getitem in Hget.
      destruct s; try (injection Hget as <-; auto).
      destruct (dict_lookup "retcode" items0); [discriminate |].
      injection Hget as <-; auto.
Qed.

(** How the report of a fatal dictionary ends, and what it prints. *)
Lemma report_fatal_leaves (d : list (string * pyval)) (st : state) :
  exists e ls,
    report_fatal (PDict d) st = (Raise e, mkState (heap st) (trace st ++ map Print ls)) /\
    forallb report_line ls = true /\
    (e = SystemExit (-1) \/ e = KeyError "retcode" \/ e = TypeError).
Proof.
  unfold report_fatal.
  unfold bind at 1. unfold lift at 1. cbn [py_get].
  unfold bind at 1. unfold emit at 1.
  unfold bind at 1. unfold lift at 1. cbn [py_get].
  set (bt := default (PStr "No backtrace") (dict_lookup "backtrace" d)).
  set (st1 := mkState (heap st) (trace st ++ [Print (LBacktrace bt)])).
  destruct (py_is_none (default PNone (dict_lookup "results" d))) eqn:Hnone;
    cbn [negb].
  - exists (SystemExit (-1)), [LBacktrace bt; LValue (PDict d)].
    unfold bind, emit, raise. cbn. rewrite <- app_assoc. auto.
  - unfold bind at 1. unfold bind at 1. unfold lift at 1.
    destruct (py_getitem (PDict d) "results") as [all_results | e] eqn:Hall.
    2:{ unfold py_getitem in Hall.
        destruct (dict_lookup "results" d); [discriminate | cbn in Hnone; discriminate]. }
    unfold bind at 1. unfold lift at 1.
    destruct (py_iter all_results) as [items | e] eqn:Hiter.
    2:{ exists e, [LBacktrace bt]. split; [reflexivity |]. split; [reflexivity |].
        destruct all_results; cbn in Hiter; try discriminate;
          injection Hiter as <-; auto. }
    destruct (print_failed_lines items st1) as (r & ls & Hrun & Hls & Hr).
    rewrite Hrun. subst st1. cbn [heap trace]. rewrite <- app_assoc.
    destruct Hr as [-> | [-> | ->]].
    + exists (SystemExit (-1)), (LBacktrace bt :: ls). auto.
    + exists (KeyError "retcode"), (LBacktrace bt :: ls). auto.
    + exists TypeError, (LBacktrace bt :: ls). auto.
Qed.

(** An iteration that does not end with the outcome written: how it ends
    and what it adds to the trace. *)
Lemma run_one_stops_how (name path : string) (f : test_fn) (c : AvaConfig)
    (st : state) :
  is_soft (f c (heap st)) && writable path = false ->
  exists e ls,
    one name f (Some path) c st =
      (Raise e,
       mkState (heap st)
         (trace st ++ Print (LRunTest name) :: CallTest name c :: map Print ls)) /\
    forallb report_line ls = true /\
    loop_exit path (Raise e).
Proof.
  unfold is_soft, run_one, write_results, loop_exit. intros Hstop.
  unfold bind at 1. unfold emit at 1. unfold bind at 1. unfold emit at 1.
  unfold bind at 1. cbn [heap trace]. unfold bind at 1. unfold lift at 1.
  rewrite <- app_assoc. cbn [app].
  set (st1 := mkState (heap st) (trace st ++ [Print (LRunTest name); CallTest name c])).
  destruct (py_getitem (f c (heap st)) "retcode") as [rc | e] eqn:Hget.
  - destruct (py_eq_int rc (-1)) eqn:Hrc.
    + destruct (f c (heap st)) as [| | | | | d]; try discriminate.
      destruct (report_fatal_leaves d st1) as (e & ls & Hrun & Hls & He).
      exists e, ls. rewrite Hrun. subst st1. cbn [heap trace].
      rewrite <- app_assoc. cbn [app]. split; [reflexivity |]. split; [exact Hls |].
      destruct He as [-> | [-> | ->]]; auto 6.
    + cbn [negb andb] in Hstop. rewrite Hstop.
      exists (OSError path), []. unfold raise. cbn [map]. subst st1.
      split; [reflexivity |]. split; [reflexivity |]. auto 6.
  - exists e, []. split; [reflexivity |]. split; [reflexivity |].
    unfold py_getitem in Hget.
    destruct (f c (heap st)); try (injection Hget as <-; auto).
    destruct (dict_lookup "retcode" items); [discriminate |].
    injection Hget as <-. auto.
Qed.

(** The shape of every execution of the loop: [k] iterations that end with
    a write, then either the end of the list or one iteration that stops. *)
Lemma run_tests_shape (name path : string) (f : test_fn) (cs : list AvaConfig) :
  forall (st st' : state) (r : res unit),
    tests name f (Some path) cs st = (r, st') ->
    exists k more,
      heap st' = heap st /\
      trace st' =
        trace st ++ flat_map (round name path f (heap st)) (take k cs) ++ more /\
      forallb (fun c => is_soft (f c (heap st))) (take k cs) = true /\
      (k = 0%nat \/ writable path = true) /\
      loop_exit path r /\
      ((r = Ok tt /\ k = length cs /\ more = []) \/
       (exists c ls,
          r <> Ok tt /\ cs !! k = Some c /\
          is_soft (f c (heap st)) && writable path = false /\
          forallb report_line ls = true /\
          more = Print (LRunTest name) :: CallTest name c :: map Print ls)).
Proof.
  induction cs as [| c cs IH]; intros st st' r Hrun.
  - cbn in Hrun. injection Hrun as <- <-. exists 0%nat, [].
    cbn. rewrite app_nil_r. unfold loop_exit. repeat split; auto.
  - unfold run_tests in *. cbn [iterM] in Hrun.
    destruct (is_soft (f c (heap st)) && writable path) eqn:Hgo.
    + apply andb_prop in Hgo as [Hc Hw].
      rewrite (bind_ok _ _ _ _ _ (run_one_soft writable name path f c st Hc Hw)) in Hrun.
      destruct (IH _ _ _ Hrun) as (k & more & Hheap & Htrace & Hsoft & _ & Hexit & Hend).
      cbn [heap trace] in *.
      exists (S k), more. cbn [take flat_map forallb].
      rewrite Hc, Hsoft, Htrace, <- !app_assoc.
      repeat split; auto.
      destruct Hend as [(-> & -> & ->) | (c' & ls & Hr & Hc' & Hstop & Hls & ->)].
      * left. auto.
      * right. exists c', ls. auto.
    + destruct (run_one_stops_how name path f c st Hgo) as (e & ls & Hone & Hls & He).
      rewrite (bind_raise _ _ _ _ _ Hone) in Hrun. injection Hrun as <- <-.
      exists 0%nat, (Print (LRunTest name) :: CallTest name c :: map Print ls).
      cbn [take flat_map forallb heap trace app].
      repeat split; auto.
      right. exists c, ls. repeat split; auto; discriminate.
Qed.

(** *** The modes of [main] *)

Lemma list_names_run (names : list string) (st : state) :
  iterM (fun name => emit (Print (LText ("* " ++ name)%string))) names st =
    (Ok tt,
     mkState (heap st)
       (trace st ++ map (fun name => Print (LText ("* " ++ name)%string)) names)).
Proof.
  revert st. induction names as [| n names IH]; intros st.
  - cbn. unfold ret. rewrite app_nil_r. now destruct st.
  - cbn [iterM map]. unfold bind, emit. rewrite IH. cbn [heap trace].
    now rewrite <- app_assoc.
Qed.

(** X1. With [--test-list], [main] prints the header and one line per key
    of the registry, in the order of the registry, and returns: whatever
    the other options are (an unknown test name, a destination), no device
    is enumerated, no configuration is built, no test is invoked, nothing
    is written and the store is left as it was. *)
Theorem list_mode_only_lists (o : Namespace) (st : state) :
  opt_test_list o = true ->
  ava_main o st =
    (Ok tt,
     mkState (heap st)
       (trace st ++
        Print (LText "list of available tests") ::
        map (fun name => Print (LText ("* " ++ name)%string)) (map fst AVA_TESTS))) /\
  exit_status (fst (ava_main o st)) = 0.
Proof.
  intros Hlist.
  match goal with |- ?run = ?res /\ _ => assert (Hrun : run = res) end.
  { unfold main, list_tests. rewrite Hlist.
    unfold bind at 1. unfold emit at 1. rewrite list_names_run.
    cbn [heap trace]. now rewrite <- app_assoc. }
  rewrite Hrun. auto.
Qed.

(** X2. Without a selected test, a run enumerates the devices and builds
    one configuration per device, and that is all: it returns normally,
    whether or not the destination could be opened. *)
Theorem no_test_selected_only_configures (o : Namespace) (h : list (list string)) :
  opt_test_list o = false ->
  opt_test o = None ->
  let run := ava_main o (start h) in
  let devices := get_all_serials (opt_android_serial o) in
  fst run = Ok tt /\
  exit_status (fst run) = 0 /\
  trace (snd run) =
    prologue (set_outfile o) devices ++
    map (fun s => CallGetAndroidSerial (Some s)) devices.
Proof.
  intros Hlist Htest run devices. subst run.
  unfold main. rewrite Hlist. cbv zeta.
  destruct (create_configs_total get_all_serials get_android_serial TEST_INPUT_MP4
              (set_outfile o) (start h)) as (cs & new & Hcfg & _).
  rewrite (bind_ok _ _ _ _ _ Hcfg). unfold run_selected.
  cbn [set_outfile opt_test opt_android_serial] in *. rewrite Htest.
  unfold ret. cbn. auto.
Qed.

(** *** The loop as a whole *)

Lemma build_configs_outfile (o : Namespace) (devices : list string) (st st' : state)
    (cs : list AvaConfig) :
  builds o devices st = (Ok cs, st') ->
  Forall (fun c => cfg_outfile c = opt_outfile o) cs.
Proof.
  revert st st' cs. induction devices as [| d ds IH]; intros st st' cs Hrun.
  - cbn in Hrun. injection Hrun as <- _. constructor.
  - unfold build_configs in *. cbn [mapM] in Hrun.
    destruct (build_config_total get_android_serial TEST_INPUT_MP4 o d st)
      as (f & new & Hb).
    rewrite (bind_ok _ _ _ _ _ Hb) in Hrun. unfold bind at 1 in Hrun.
    destruct (mapM _ ds _) as [[cs' | e] st2] eqn:Hrest; [| discriminate].
    injection Hrun as <- _. constructor; [reflexivity | eauto].
Qed.

Lemma resolve_outfile_not_dash (outfile : option string) :
  resolve_outfile outfile <> "-"%string.
Proof.
  unfold resolve_outfile. destruct outfile as [p |]; [| discriminate].
  destruct (String.eqb p "-") eqn:Hp; [discriminate |].
  now apply String.eqb_neq.
Qed.

(** The run of a selected, registered test, as the loop sees it. *)
Lemma main_shape (o : Namespace) (h : list (list string)) (name : string)
    (f : test_fn) (cs : list AvaConfig) (st1 : state) :
  opt_test_list o = false ->
  opt_test o = Some name ->
  registry_lookup name AVA_TESTS = Some f ->
  configs (set_outfile o) (start h) = (Ok cs, st1) ->
  let run := ava_main o (start h) in
  let path := resolve_outfile (opt_outfile o) in
  exists k more,
    trace (snd run) =
      trace st1 ++ flat_map (round name path f (heap st1)) (take k cs) ++ more /\
    forallb (fun c => is_soft (f c (heap st1))) (take k cs) = true /\
    (k = 0%nat \/ writable path = true) /\
    loop_exit path (fst run) /\
    ((fst run = Ok tt /\ k = length cs /\ more = []) \/
     (exists c ls,
        fst run <> Ok tt /\ cs !! k = Some c /\
        is_soft (f c (heap st1)) && writable path = false /\
        forallb report_line ls = true /\
        more = Print (LRunTest name) :: CallTest name c :: map Print ls)).
Proof.
  intros Hlist Htest Hreg Hcfg run path. subst run.
  rewrite (main_selected get_all_serials get_android_serial AVA_TESTS writable
             TEST_INPUT_MP4 o _ st1 name f cs Hlist Htest Hreg Hcfg).
  fold path.
  destruct (tests name f (Some path) cs st1) as [r st'] eqn:Hrun.
  destruct (run_tests_shape name path f cs st1 st' r Hrun)
    as (k & more & _ & Htrace & Hsoft & Hw & Hexit & Hend).
  exists k, more. cbn [fst snd]. auto.
Qed.

(** X3. All the writes of a run go to one destination, the resolved
    [options.outfile]: ["/dev/fd/1"] when no output file or ["-"] was given,
    the given path otherwise; it is never ["-"], and every configuration
    built carries it. *)
Theorem single_destination (o : Namespace) (h : list (list string)) :
  opt_test_list o = false ->
  let run := ava_main o (start h) in
  let path := resolve_outfile (opt_outfile o) in
  path <> "-"%string /\
  (opt_outfile o = None \/ opt_outfile o = Some "-"%string -> path = "/dev/fd/1"%string) /\
  (forall p, opt_outfile o = Some p -> p <> "-"%string -> path = p) /\
  Forall (fun pd => fst pd = path) (written (trace (snd run))) /\
  exists cs st1,
    configs (set_outfile o) (start h) = (Ok cs, st1) /\
    Forall (fun c => cfg_outfile c = Some path) cs.
Proof.
  intros Hlist run path. subst run.
  split; [apply resolve_outfile_not_dash |].
  split; [intros [Ho | Ho]; unfold path; now rewrite Ho |].
  split.
  { intros p Hp Hne. unfold path, resolve_outfile. rewrite Hp.
    apply String.eqb_neq in Hne. now rewrite Hne. }
  destruct (create_configs_total get_all_serials get_android_serial TEST_INPUT_MP4
              (set_outfile o) (start h)) as (cs & new & Hcfg & _).
  match type of Hcfg with _ = (_, ?s) => set (st1 := s) in * end.
  destruct (configs_from_start get_all_serials get_android_serial TEST_INPUT_MP4
              o h cs st1 Hcfg) as (_ & Hwr & _).
  split.
  - destruct (opt_test o) as [name |] eqn:Htest.
    + destruct (registry_lookup name AVA_TESTS) as [f |] eqn:Hreg.
      * destruct (main_shape o h name f cs st1 Hlist Htest Hreg Hcfg)
          as (k & more & Htrace & _ & _ & _ & Hend).
        rewrite Htrace, !written_app, Hwr, written_rounds. cbn [app].
        apply Forall_app. split.
        -- apply Forall_forall. intros pd Hin. apply list_elem_of_In in Hin.
           apply in_map_iff in Hin as (c & <- & _). reflexivity.
        -- destruct Hend as [(_ & _ & ->) | (c & ls & _ & _ & _ & _ & ->)].
           ++ constructor.
           ++ rewrite written_stop. constructor.
      * unfold main. rewrite Hlist. cbv zeta. rewrite (bind_ok _ _ _ _ _ Hcfg).
        unfold run_selected. cbn [set_outfile opt_test]. rewrite Htest, Hreg.
        unfold raise. cbn [snd]. rewrite Hwr. constructor.
    + unfold main. rewrite Hlist. cbv zeta. rewrite (bind_ok _ _ _ _ _ Hcfg).
      unfold run_selected. cbn [set_outfile opt_test]. rewrite Htest.
      unfold ret. cbn [snd]. rewrite Hwr. constructor.
  - exists cs, st1. split; [exact Hcfg |].
    unfold create_configs in Hcfg. unfold bind at 1 2 3 in Hcfg.
    destruct (0 <? _) in Hcfg; destruct (_ =? _)%nat in Hcfg;
      cbn in Hcfg; apply build_configs_outfile in Hcfg; exact Hcfg.
Qed.

(** X4. A run of a registered test that returns normally has invoked the
    test on every configuration, in order; every outcome had a return code
    other than -1, and each was written to the destination, which could be
    opened unless there was no device. *)
Theorem normal_return_all_written (o : Namespace) (h : list (list string))
    (name : string) (f : test_fn) (cs : list AvaConfig) (st1 : state) :
  opt_test_list o = false ->
  opt_test o = Some name ->
  registry_lookup name AVA_TESTS = Some f ->
  configs (set_outfile o) (start h) = (Ok cs, st1) ->
  let run := ava_main o (start h) in
  let path := resolve_outfile (opt_outfile o) in
  fst run = Ok tt ->
  forallb (fun c => is_soft (f c (heap st1))) cs = true /\
  (cs = [] \/ writable path = true) /\
  invoked (trace (snd run)) = cs /\
  written (trace (snd run)) = map (fun c => (path, f c (heap st1))) cs.
Proof.
  intros Hlist Htest Hreg Hcfg run path Hok. subst run.
  destruct (configs_from_start get_all_serials get_android_serial TEST_INPUT_MP4
              o h cs st1 Hcfg) as (Hinv & Hwr & _).
  destruct (main_shape o h name f cs st1 Hlist Htest Hreg Hcfg)
    as (k & more & Htrace & Hsoft & Hw & _ & Hend).
  fold path in Htrace, Hw, Hend.
  destruct Hend as [(_ & -> & ->) | (c & ls & Hne & _)]; [| contradiction].
  rewrite firstn_all in *. rewrite Htrace.
  rewrite !invoked_app, !written_app, invoked_rounds, written_rounds, Hinv, Hwr.
  cbn [invoked written flat_map app]. rewrite !app_nil_r.
  repeat split; auto.
  destruct Hw as [Hlen | Hw]; [left | now right].
  now destruct cs.
Qed.

(** X5. However a run of a registered test ends, the documents written are
    the outcomes of the first [k] devices, in order, none of them fatal; the
    tests invoked are those of the same devices and, when the run does not
    return normally, of the one device at which it stopped.  So a fatal
    outcome is never written, and at most one invoked test has its outcome
    unwritten. *)
Theorem writes_lag_invocations (o : Namespace) (h : list (list string))
    (name : string) (f : test_fn) (cs : list AvaConfig) (st1 : state) :
  opt_test_list o = false ->
  opt_test o = Some name ->
  registry_lookup name AVA_TESTS = Some f ->
  configs (set_outfile o) (start h) = (Ok cs, st1) ->
  let run := ava_main o (start h) in
  let path := resolve_outfile (opt_outfile o) in
  exists k,
    written (trace (snd run)) = map (fun c => (path, f c (heap st1))) (take k cs) /\
    forallb (fun c => is_soft (f c (heap st1))) (take k cs) = true /\
    ((fst run = Ok tt /\ k = length cs /\ invoked (trace (snd run)) = cs) \/
     (fst run <> Ok tt /\ (k < length cs)%nat /\
      invoked (trace (snd run)) = take (S k) cs)).
Proof.
  intros Hlist Htest Hreg Hcfg run path. subst run.
  destruct (configs_from_start get_all_serials get_android_serial TEST_INPUT_MP4
              o h cs st1 Hcfg) as (Hinv & Hwr & _).
  destruct (main_shape o h name f cs st1 Hlist Htest Hreg Hcfg)
    as (k & more & Htrace & Hsoft & _ & _ & Hend).
  fold path in Htrace, Hend.
  exists k. rewrite Htrace.
  rewrite !invoked_app, !written_app, invoked_rounds, written_rounds, Hinv, Hwr.
  cbn [app].
  destruct Hend as [(Hok & -> & ->) | (c & ls & Hne & Hc & _ & _ & ->)].
  - cbn [invoked written flat_map]. rewrite !app_nil_r. rewrite firstn_all in *.
    split; [reflexivity |]. split; [exact Hsoft |]. left. auto.
  - rewrite written_stop, invoked_stop, app_nil_r.
    split; [reflexivity |]. split; [exact Hsoft |]. right.
    split; [exact Hne |]. split; [eapply lookup_lt_Some; eauto |].
    symmetry. now apply take_S_r.
Qed.

(** *** Ill-formed outcomes *)

Lemma run_one_non_dict (name path : string) (f : test_fn) (c : AvaConfig)
    (st : state) :
  is_dict (f c (heap st)) = false ->
  one name f (Some path) c st =
    (Raise TypeError,
     mkState (heap st) (trace st ++ [Print (LRunTest name); CallTest name c])).
Proof.
  intros Hv. unfold run_one.
  unfold bind at 1. unfold emit at 1. unfold bind at 1. unfold emit at 1.
  unfold bind at 1. cbn [heap trace]. unfold bind at 1. unfold lift at 1.
  rewrite <- app_assoc. cbn [app].
  now destruct (f c (heap st)).
Qed.

Lemma report_fatal_ill_nested (d : list (string * pyval)) (v : pyval) (st : state) :
  dict_lookup "results" d = Some v ->
  ill_nested v = true ->
  report_fatal (PDict d) st =
    (Raise TypeError,
     mkState (heap st)
       (trace st ++
        [Print (LBacktrace (default (PStr "No backtrace") (dict_lookup "backtrace" d)))])).
Proof.
  intros Hres Hill. unfold report_fatal.
  unfold bind at 1. unfold lift at 1. cbn [py_get].
  unfold bind at 1. unfold emit at 1.
  unfold bind at 1. unfold lift at 1. cbn [py_get py_getitem].
  rewrite Hres. unfold default. cbn [from_option id].
  destruct v as [| b | n | s | items | items]; try discriminate;
    cbn [py_is_none negb];
    unfold bind at 1; unfold bind at 1; unfold lift at 1;
    unfold bind at 1; unfold lift at 1; cbn [py_iter]; try reflexivity.
  - destruct s as [| a s]; [discriminate |]. reflexivity.
  - destruct items as [| x items]; [discriminate |].
    destruct x; try discriminate; reflexivity.
  - destruct items as [| [k x] items]; [discriminate |]. reflexivity.
Qed.

(** X7. A test that returns anything but a dictionary ([None], a number, a
    string, a list) ends the run at that device with an uncaught
    [TypeError], raised by the lookup of ["retcode"]: exit status 1, nothing
    printed about the outcome, nothing written for it, no later device
    tested. *)
Theorem non_dict_outcome_type_error (o : Namespace) (h : list (list string))
    (name : string) (f : test_fn) (cs : list AvaConfig) (st1 : state)
    (i : nat) (c : AvaConfig) :
  opt_test_list o = false ->
  opt_test o = Some name ->
  registry_lookup name AVA_TESTS = Some f ->
  configs (set_outfile o) (start h) = (Ok cs, st1) ->
  let run := ava_main o (start h) in
  let path := resolve_outfile (opt_outfile o) in
  cs !! i = Some c ->
  (i < length (invoked (trace (snd run))))%nat ->
  is_dict (f c (heap st1)) = false ->
  fst run = Raise TypeError /\
  exit_status (fst run) = 1 /\
  trace (snd run) =
    trace st1 ++ flat_map (round name path f (heap st1)) (take i cs) ++
    [Print (LRunTest name); CallTest name c].
Proof.
  intros Hlist Htest Hreg Hcfg run path Hc Hi Hv. subst run.
  rewrite (main_reaches get_all_serials get_android_serial AVA_TESTS writable
             TEST_INPUT_MP4 o h name f cs st1 i c Hlist Htest Hreg Hcfg Hc Hi).
  fold path.
  match goal with |- context [bind _ _ ?s] => set (st2 := s) end.
  rewrite (bind_raise _ _ _ _ _ (run_one_non_dict name path f c st2 Hv)).
  cbn [fst snd trace st2]. rewrite <- app_assoc. auto.
Qed.

(** X8. A fatal outcome whose ["results"] value is not a list of
    dictionaries (a number, or a non-empty string, dictionary or list that
    starts with something else than a dictionary) ends the run with an
    uncaught [TypeError] instead of [sys.exit(-1)]: the backtrace is
    printed, the outcome is not, and the exit status is 1 instead of 255. *)
Theorem ill_nested_type_error (o : Namespace) (h : list (list string))
    (name : string) (f : test_fn) (cs : list AvaConfig) (st1 : state)
    (i : nat) (c : AvaConfig) (d : list (string * pyval)) (v : pyval) :
  opt_test_list o = false ->
  opt_test o = Some name ->
  registry_lookup name AVA_TESTS = Some f ->
  configs (set_outfile o) (start h) = (Ok cs, st1) ->
  let run := ava_main o (start h) in
  let path := resolve_outfile (opt_outfile o) in
  cs !! i = Some c ->
  (i < length (invoked (trace (snd run))))%nat ->
  f c (heap st1) = PDict d ->
  is_fatal (PDict d) = true ->
  dict_lookup "results" d = Some v ->
  ill_nested v = true ->
  fst run = Raise TypeError /\
  exit_status (fst run) = 1 /\
  trace (snd run) =
    trace st1 ++ flat_map (round name path f (heap st1)) (take i cs) ++
    [Print (LRunTest name); CallTest name c;
     Print (LBacktrace (default (PStr "No backtrace") (dict_lookup "backtrace" d)))].
Proof.
  intros Hlist Htest Hreg Hcfg run path Hc Hi Hv Hfatal Hres Hill. subst run.
  rewrite (main_reaches get_all_serials get_android_serial AVA_TESTS writable
             TEST_INPUT_MP4 o h name f cs st1 i c Hlist Htest Hreg Hcfg Hc Hi).
  fold path.
  match goal with |- context [bind _ _ ?s] => set (st2 := s) end.
  assert (Hone : one name f (Some path) c st2 =
            (Raise TypeError,
             mkState (heap st2)
               (trace st2 ++
                [Print (LRunTest name); CallTest name c;
                 Print (LBacktrace (default (PStr "No backtrace")
                                      (dict_lookup "backtrace" d)))]))).
  { rewrite (run_one_fatal writable) by (cbn [heap st2]; now rewrite Hv).
    cbn [heap st2]. rewrite Hv, (report_fatal_ill_nested d v _ Hres Hill).
    cbn [heap trace]. now rewrite <- app_assoc. }
  rewrite (bind_raise _ _ _ _ _ Hone). cbn [fst snd trace st2].
  rewrite <- app_assoc. auto.
Qed.

(** *** [replace_serial] and [AvaConfig] *)

Lemma replace_serial_run (o : Namespace) (serial : string) (st : state) :
  (forall l, opt_infile_list o = FList l -> is_Some (heap st !! l)) ->
  exists f new,
    replace_serial o serial st =
      (Ok (mkNamespace (opt_debug o) (opt_dry_run o) (Some serial) (opt_encoder o)
             (opt_test o) (opt_test_list o) f (opt_outfile o)),
       mkState (heap st ++ new) (trace st)) /\
    view (heap st ++ new) f = view (heap st) (opt_infile_list o) /\
    (forall l, f = FList l -> (length (heap st) <= l < length (heap st ++ new))%nat).
Proof.
  intros Hwf. unfold replace_serial, deepcopy, deepcopy_infile.
  destruct (opt_infile_list o) as [| s | l] eqn:Ho.
  - exists FNone, []. cbn. unfold bind, ret. cbn. rewrite app_nil_r.
    repeat split; try discriminate. now destruct st.
  - exists (FStr s), []. cbn. unfold bind, ret. cbn. rewrite app_nil_r.
    repeat split; try discriminate. now destruct st.
  - destruct (Hwf l eq_refl) as [xs Hxs].
    exists (FList (length (heap st))), [xs]. split; [| split].
    + unfold bind at 1 2. rewrite Hxs. reflexivity.
    + cbn. rewrite Hxs. rewrite lookup_app_r by lia.
      now replace (length (heap st) - length (heap st))%nat with 0%nat by lia.
    + intros l' [= <-]. rewrite length_app. cbn. lia.
Qed.

(** X9. [replace_serial] returns a copy and overrides: the copy differs
    from the base options in the serial only, whatever serial the base had,
    and the base and every list object that existed are left as they were.
    Replacing the serial of a copy again gives what replacing it in the base
    gives: the last serial wins and nothing of the first one remains. *)
Theorem replace_serial_last_wins (o : Namespace) (s1 s2 : string) (st : state) :
  (forall l, opt_infile_list o = FList l -> is_Some (heap st !! l)) ->
  exists o1 st1 o2 st2 o' st',
    replace_serial o s1 st = (Ok o1, st1) /\
    replace_serial o1 s2 st1 = (Ok o2, st2) /\
    replace_serial o s2 st = (Ok o', st') /\
    opt_android_serial o1 = Some s1 /\
    opt_android_serial o2 = Some s2 /\
    opt_android_serial o' = Some s2 /\
    same_options_but_serial (heap st1) o1 (heap st) o /\
    same_options_but_serial (heap st2) o2 (heap st') o' /\
    trace st2 = trace st /\
    (forall l, (l < length (heap st))%nat -> heap st2 !! l = heap st !! l) /\
    independent (heap st2) (opt_infile_list o2) (opt_infile_list o) /\
    independent (heap st2) (opt_infile_list o2) (opt_infile_list o1).
Proof.
  intros Hwf.
  destruct (replace_serial_run o s1 st Hwf) as (f1 & new1 & H1 & Hv1 & Hl1).
  destruct (replace_serial_run o s2 st Hwf) as (f' & new' & H' & Hv' & Hl').
  match type of H1 with _ = (Ok ?x, ?s) => set (o1 := x) in *; set (st1 := s) in * end.
  assert (Hwf1 : forall l, opt_infile_list o1 = FList l -> is_Some (heap st1 !! l)).
  { intros l Hl. cbn in Hl. specialize (Hl1 l Hl). apply lookup_lt_is_Some. cbn. lia. }
  destruct (replace_serial_run o1 s2 st1 Hwf1) as (f2 & new2 & H2 & Hv2 & Hl2).
  eexists o1, st1, _, _, _, _.
  split; [exact H1 |]. split; [exact H2 |]. split; [exact H' |].
  cbn [opt_android_serial o1 heap trace st1 opt_infile_list] in *.
  repeat split; auto.
  - cbn. rewrite Hv2, Hv1. now rewrite Hv'.
  - intros l Hl. rewrite <- app_assoc. now apply lookup_app_l.
  - intros l xs ->.
    specialize (Hl2 l eq_refl). rewrite length_app in Hl2.
    destruct (opt_infile_list o) as [| s | l0] eqn:Ho; try reflexivity.
    apply view_mutate_other. destruct (Hwf l0 eq_refl) as [ys Hys].
    apply lookup_lt_Some in Hys. lia.
  - intros l xs ->.
    specialize (Hl2 l eq_refl).
    destruct f1 as [| s | l1] eqn:Hf1; try reflexivity.
    apply view_mutate_other. specialize (Hl1 l1 eq_refl). lia.
Qed.

(** X10. The input list of a configuration.  Built from options without
    input list, a configuration holds a list with the default video as its
    only item; built from options with an input, it holds that input as it
    is (a string stays a string, a list has equal items).  A list held by
    the configuration is a fresh object: it did not exist before the
    configuration was built, so it is not the list of the options, and a
    mutation through either one is not seen through the other.  The
    [infile_list] is never [None], the other fields but the serial are
    those of the options, the serial is resolved from the device serial and
    not from the serial of the options, and building the configuration
    changes no list object that existed. *)
Theorem config_input_list (o : Namespace) (serial : string) (st : state) :
  (forall l, opt_infile_list o = FList l -> is_Some (heap st !! l)) ->
  exists c st',
    build o serial st = (Ok c, st') /\
    cfg_infile_list c <> FNone /\
    view (heap st') (cfg_infile_list c) =
      expected_input TEST_INPUT_MP4 (view (heap st) (opt_infile_list o)) /\
    cfg_android_serial c = get_android_serial (Some serial) /\
    cfg_debug c = opt_debug o /\
    cfg_dry_run c = opt_dry_run o /\
    cfg_encoder c = opt_encoder o /\
    cfg_test c = opt_test o /\
    cfg_outfile c = opt_outfile o /\
    (forall l, (l < length (heap st))%nat -> heap st' !! l = heap st !! l) /\
    (forall l, cfg_infile_list c = FList l ->
               (length (heap st) <= l < length (heap st'))%nat) /\
    independent (heap st') (cfg_infile_list c) (opt_infile_list o) /\
    independent (heap st') (opt_infile_list o) (cfg_infile_list c).
Proof.
  intros Hwf.
  destruct (build_config_run get_android_serial TEST_INPUT_MP4 o serial st Hwf)
    as (f & new & Hb & Hf).
  eexists _, _. split; [exact Hb |].
  cbn [cfg_infile_list cfg_android_serial cfg_debug cfg_dry_run cfg_encoder
       cfg_test cfg_outfile heap].
  assert (Hframe : forall l, (l < length (heap st))%nat ->
                             (heap st ++ new) !! l = heap st !! l)
    by (intros l Hl; now apply lookup_app_l).
  destruct (opt_infile_list o) as [| s | l0] eqn:Ho.
  - destruct Hf as [-> ->].
    split; [discriminate |]. split.
    { cbn. rewrite lookup_app_r by lia.
      now replace (length (heap st) - length (heap st))%nat with 0%nat by lia. }
    do 6 (split; [reflexivity |]). split; [exact Hframe |]. split.
    { intros l [= <-]. rewrite length_app. cbn. lia. }
    split; [apply independent_immutable_r | apply independent_immutable_l];
      congruence.
  - destruct Hf as [-> ->].
    split; [discriminate |]. split; [reflexivity |].
    do 6 (split; [reflexivity |]). split; [exact Hframe |]. split; [discriminate |].
    split; apply independent_immutable_l; congruence.
  - destruct Hf as [-> (xs & Hxs & ->)].
    assert (Hl0 : (l0 < length (heap st))%nat) by (eapply lookup_lt_Some; eauto).
    split; [discriminate |]. split.
    { cbn. rewrite Hxs. rewrite lookup_app_r by lia.
      now replace (length (heap st) - length (heap st))%nat with 0%nat by lia. }
    do 6 (split; [reflexivity |]). split; [exact Hframe |]. split.
    { intros l [= <-]. rewrite length_app. cbn. lia. }
    split; apply independent_locs; lia.
Qed.

(** *** The phases of a run *)

Lemma loop_event_rounds (name path : string) (f : test_fn) (h : list (list string))
    (cs : list AvaConfig) :
  forallb loop_event (flat_map (round name path f h) cs) = true.
Proof. induction cs as [| c cs IH]; [reflexivity | exact IH]. Qed.

Lemma loop_events_no_enumeration (more : list event) :
  forallb loop_event more = true -> List.filter is_enumeration more = [].
Proof.
  induction more as [| e more IH]; [reflexivity |].
  cbn. intros H. apply andb_prop in H as [He Hmore].
  rewrite (IH Hmore). destruct e as [[] | | | |]; try discriminate; reflexivity.
Qed.

Lemma loop_events_not_informational (more : list event) (e : event) :
  forallb loop_event more = true -> In e more -> loop_event e = true.
Proof.
  intros H Hin. rewrite forallb_forall in H. now apply H.
Qed.

Lemma builds_no_enumeration (devices : list string) :
  List.filter is_enumeration (map (fun s => CallGetAndroidSerial (Some s)) devices) = [].
Proof. induction devices; [reflexivity | assumption]. Qed.

(** After the prologue and the building of the configurations, a run
    consists of events of the loop only. *)
Lemma main_phases (o : Namespace) (h : list (list string)) :
  opt_test_list o = false ->
  let run := ava_main o (start h) in
  let devices := get_all_serials (opt_android_serial o) in
  exists more,
    trace (snd run) =
      prologue (set_outfile o) devices ++
      map (fun s => CallGetAndroidSerial (Some s)) devices ++ more /\
    forallb loop_event more = true.
Proof.
  intros Hlist run devices. subst run.
  destruct (create_configs_total get_all_serials get_android_serial TEST_INPUT_MP4
              (set_outfile o) (start h)) as (cs & new & Hcfg & _).
  cbn [set_outfile opt_android_serial start trace heap app] in Hcfg.
  fold devices in Hcfg.
  match type of Hcfg with _ = (_, ?s) => set (st1 := s) in * end.
  destruct (opt_test o) as [name |] eqn:Htest.
  - destruct (registry_lookup name AVA_TESTS) as [f |] eqn:Hreg.
    + destruct (main_shape o h name f cs st1 Hlist Htest Hreg Hcfg)
        as (k & more & Htrace & _ & _ & _ & Hend).
      eexists. rewrite Htrace. cbn [trace st1]. rewrite <- app_assoc.
      split; [reflexivity |].
      rewrite forallb_app, loop_event_rounds. cbn [andb].
      destruct Hend as [(_ & _ & ->) | (c & ls & _ & _ & _ & Hls & ->)];
        [reflexivity |].
      cbn [forallb loop_event andb]. now apply loop_event_prints.
    + exists []. unfold main. rewrite Hlist. cbv zeta. rewrite (bind_ok _ _ _ _ _ Hcfg).
      unfold run_selected. cbn [set_outfile opt_test]. rewrite Htest, Hreg.
      unfold raise. cbn [snd trace st1]. now rewrite app_nil_r.
  - exists []. unfold main. rewrite Hlist. cbv zeta. rewrite (bind_ok _ _ _ _ _ Hcfg).
    unfold run_selected. cbn [set_outfile opt_test]. rewrite Htest.
    unfold ret. cbn [snd trace st1]. now rewrite app_nil_r.
Qed.

(** X11. A run enumerates the devices exactly once, with the serial filter
    of the options, and does so before anything else but the debug line:
    before any configuration is built and any test is invoked. *)
Theorem enumerated_once_first (o : Namespace) (h : list (list string)) :
  opt_test_list o = false ->
  let run := ava_main o (start h) in
  exists rest,
    trace (snd run) =
      (if 0 <? opt_debug o then [Print (LDebug (set_outfile o))] else []) ++
      CallGetAllSerials (opt_android_serial o) :: rest /\
    List.filter is_enumeration rest = [].
Proof.
  intros Hlist run. subst run.
  destruct (main_phases o h Hlist) as (more & Htrace & Hmore).
  rewrite Htrace. unfold prologue. cbn [set_outfile opt_debug opt_android_serial].
  rewrite <- !app_assoc. cbn [app].
  eexists. split; [reflexivity |].
  rewrite !List.filter_app, builds_no_enumeration, (loop_events_no_enumeration _ Hmore).
  now destruct (length _ =? 0)%nat.
Qed.

(** X12. The informational lines of a run.  "No connected devices" is
    printed exactly when the enumeration returns no device.  The debug line
    is printed exactly when [options.debug] is positive, and then it shows
    the options with the resolved output file. *)
Theorem informational_lines (o : Namespace) (h : list (list string)) :
  opt_test_list o = false ->
  let run := ava_main o (start h) in
  (In (Print (LText "No connected devices")) (trace (snd run)) <->
   get_all_serials (opt_android_serial o) = []) /\
  (forall x, In (Print (LDebug x)) (trace (snd run)) <->
             0 < opt_debug o /\ x = set_outfile o).
Proof.
  intros Hlist run. subst run.
  destruct (main_phases o h Hlist) as (more & Htrace & Hmore).
  rewrite Htrace. unfold prologue. cbn [set_outfile opt_debug opt_android_serial].
  set (devices := get_all_serials (opt_android_serial o)).
  assert (Hbuilds : forall l, ~ In (Print l)
            (map (fun s => CallGetAndroidSerial (Some s)) devices)).
  { intros l Hin. apply in_map_iff in Hin as (s & Hs & _). discriminate. }
  split.
  - split.
    + intros Hin. rewrite !in_app_iff in Hin.
      destruct Hin as [[Hin | [Hin | Hin]] | [Hin | Hin]].
      * destruct (0 <? opt_debug o); [destruct Hin as [Hin | []]; discriminate | destruct Hin].
      * destruct Hin as [Hin | []]; discriminate.
      * destruct devices; [reflexivity |]. destruct Hin.
      * now apply Hbuilds in Hin.
      * apply (loop_events_not_informational _ _ Hmore) in Hin. discriminate.
    + intros ->. cbn. rewrite !in_app_iff. left. right. cbn. auto.
  - intros x. split.
    + intros Hin. rewrite !in_app_iff in Hin.
      destruct Hin as [[Hin | [Hin | Hin]] | [Hin | Hin]].
      * destruct (0 <? opt_debug o) eqn:Hd; [| destruct Hin].
        destruct Hin as [[= <-] | []]. split; [lia | reflexivity].
      * destruct Hin as [Hin | []]; discriminate.
      * destruct (length devices =? 0)%nat; [destruct Hin as [Hin | []]; discriminate | destruct Hin].
      * now apply Hbuilds in Hin.
      * apply (loop_events_not_informational _ _ Hmore) in Hin. discriminate.
    + intros [Hd ->]. rewrite !in_app_iff. left. left.
      apply Z.ltb_lt in Hd. rewrite Hd. now left.
Qed.

End Coverage.

(** ** The further properties at concrete inputs *)

Lemma list_mode_only_lists_witness :
  let o := Edge.list_options in
  opt_test_list o = true /\
  Edge.run o =
    (Ok tt,
     mkState []
       [Print (LText "list of available tests"); Print (LText "* null");
        Print (LText "* scalar")]).
Proof.
  intros o. split; [reflexivity |].
  exact (proj1 (list_mode_only_lists Scenario.serials Scenario.same_serial
                  Edge.registry Scenario.all_writable Scenario.input o (start [])
                  eq_refl)).
Defined.

Lemma no_test_selected_only_configures_witness :
  let o := Edge.idle_options in
  let run := main Scenario.serials Scenario.same_serial Scenario.registry
               Scenario.none_writable Scenario.input o (start []) in
  (opt_test_list o = false /\ opt_test o = None) /\
  fst run = Ok tt /\
  exit_status (fst run) = 0 /\
  trace (snd run) =
    [Print (LDebug (set_outfile o)); CallGetAllSerials None;
     CallGetAndroidSerial (Some "A"); CallGetAndroidSerial (Some "B")].
Proof.
  intros o run. split; [repeat split |].
  exact (no_test_selected_only_configures Scenario.serials Scenario.same_serial
           Scenario.registry Scenario.none_writable Scenario.input o []
           eq_refl eq_refl).
Defined.

Lemma single_destination_witness :
  let o := Edge.stdout_options in
  let run := Scenario.run Scenario.serials Scenario.all_writable o in
  opt_test_list o = false /\
  resolve_outfile (opt_outfile o) = "/dev/fd/1"%string /\
  length (written (trace (snd run))) = 2%nat /\
  Forall (fun pd => fst pd = "/dev/fd/1"%string) (written (trace (snd run))).
Proof.
  intros o run. split; [reflexivity |]. split; [reflexivity |]. split; [reflexivity |].
  destruct (single_destination Scenario.serials Scenario.same_serial
              Scenario.registry Scenario.all_writable Scenario.input o []
              eq_refl) as (_ & _ & _ & Hwr & _).
  exact Hwr.
Defined.

Lemma normal_return_all_written_witness :
  let o := Scenario.options "ping" in
  let run := Scenario.run Scenario.serials Scenario.all_writable o in
  let cA := Scenario.cfg "A" 0%nat "ping" in
  let cB := Scenario.cfg "B" 1%nat "ping" in
  fst run = Ok tt /\
  forallb (fun c => is_soft (Scenario.ping c (heap Scenario.configured_AB))) [cA; cB]
    = true /\
  invoked (trace (snd run)) = [cA; cB] /\
  written (trace (snd run)) =
    [("out.json"%string, Scenario.retcode_is 0); ("out.json"%string, Scenario.retcode_is 1)].
Proof.
  intros o run cA cB. split; [reflexivity |].
  destruct (normal_return_all_written Scenario.serials Scenario.same_serial
              Scenario.registry Scenario.all_writable Scenario.input o []
              "ping" Scenario.ping [cA; cB] Scenario.configured_AB
              eq_refl eq_refl eq_refl eq_refl eq_refl)
    as (Hsoft & _ & Hinv & Hwr).
  split; [exact Hsoft |]. split; [exact Hinv | exact Hwr].
Defined.

Lemma writes_lag_invocations_witness :
  let o := Scenario.options "boom" in
  let run := Scenario.run Scenario.serials Scenario.all_writable o in
  let cA := Scenario.cfg "A" 0%nat "boom" in
  let cB := Scenario.cfg "B" 1%nat "boom" in
  registry_lookup "boom" Scenario.registry = Some Scenario.boom /\
  exists k,
    written (trace (snd run)) =
      map (fun c => ("out.json"%string, Scenario.boom c (heap Scenario.configured_AB)))
        (take k [cA; cB]) /\
    forallb (fun c => is_soft (Scenario.boom c (heap Scenario.configured_AB)))
      (take k [cA; cB]) = true /\
    ((fst run = Ok tt /\ k = 2%nat /\ invoked (trace (snd run)) = [cA; cB]) \/
     (fst run <> Ok tt /\ (k < 2)%nat /\
      invoked (trace (snd run)) = take (S k) [cA; cB])).
Proof.
  intros o run cA cB. split; [reflexivity |].
  exact (writes_lag_invocations Scenario.serials Scenario.same_serial
           Scenario.registry Scenario.all_writable Scenario.input o []
           "boom" Scenario.boom [cA; cB] Scenario.configured_AB
           eq_refl eq_refl eq_refl eq_refl).
Defined.

Lemma non_dict_outcome_type_error_witness :
  let o := Scenario.options "null" in
  let run := Edge.run o in
  let cA := Scenario.cfg "A" 0%nat "null" in
  let cB := Scenario.cfg "B" 1%nat "null" in
  ((0 < length (invoked (trace (snd run))))%nat /\
   is_dict (Edge.null cA (heap Scenario.configured_AB)) = false) /\
  fst run = Raise TypeError /\
  exit_status (fst run) = 1 /\
  trace (snd run) =
    trace Scenario.configured_AB ++ [Print (LRunTest "null"); CallTest "null" cA].
Proof.
  intros o run cA cB.
  assert (Hi : (0 < length (invoked (trace (snd run))))%nat) by (vm_compute; lia).
  split; [split; [exact Hi | reflexivity] |].
  exact (non_dict_outcome_type_error Scenario.serials Scenario.same_serial
           Edge.registry Scenario.all_writable Scenario.input o []
           "null" Edge.null [cA; cB] Scenario.configured_AB 0%nat cA
           eq_refl eq_refl eq_refl eq_refl eq_refl Hi eq_refl).
Defined.

Lemma ill_nested_type_error_witness :
  let o := Scenario.options "scalar" in
  let run := Edge.run o in
  let cA := Scenario.cfg "A" 0%nat "scalar" in
  let cB := Scenario.cfg "B" 1%nat "scalar" in
  ((0 < length (invoked (trace (snd run))))%nat /\ ill_nested (PInt 5) = true) /\
  fst run = Raise TypeError /\
  exit_status (fst run) = 1 /\
  trace (snd run) =
    trace Scenario.configured_AB ++
    [Print (LRunTest "scalar"); CallTest "scalar" cA; Print (LBacktrace (PStr "trace"))].
Proof.
  intros o run cA cB.
  assert (Hi : (0 < length (invoked (trace (snd run))))%nat) by (vm_compute; lia).
  split; [split; [exact Hi | reflexivity] |].
  exact (ill_nested_type_error Scenario.serials Scenario.same_serial
           Edge.registry Scenario.all_writable Scenario.input o []
           "scalar" Edge.scalar_nested [cA; cB] Scenario.configured_AB 0%nat cA
           _ (PInt 5)
           eq_refl eq_refl eq_refl eq_refl eq_refl Hi eq_refl eq_refl eq_refl eq_refl).
Defined.

Lemma replace_serial_last_wins_witness :
  let st := mkState [["a.mp4"%string; "b.mp4"%string]] [] in
  is_Some (heap st !! 0%nat) /\
  exists o1 st1 o2 st2,
    replace_serial Scenario.list_options "A" st = (Ok o1, st1) /\
    replace_serial o1 "B" st1 = (Ok o2, st2) /\
    opt_android_serial o2 = Some "B"%string /\
    opt_infile_list o2 = FList 2%nat /\
    heap st2 !! 0%nat = Some ["a.mp4"%string; "b.mp4"%string] /\
    same_options_but_serial (heap st2) o2 (heap st) Scenario.list_options.
Proof.
  intros st.
  assert (Hlive : forall l, opt_infile_list Scenario.list_options = FList l ->
                            is_Some (heap st !! l)).
  { intros l [= <-]. now exists ["a.mp4"%string; "b.mp4"%string]. }
  split; [exact (Hlive 0%nat eq_refl) |].
  destruct (replace_serial_last_wins Scenario.list_options "A" "B" st Hlive)
    as (o1 & st1 & o2 & st2 & o' & st' & H1 & H2 & _ & _ & Hs2 & _).
  exists o1, st1, o2, st2.
  pose proof H1 as H1'. vm_compute in H1'. injection H1' as <- <-.
  pose proof H2 as H2'. vm_compute in H2'. injection H2' as <- <-.
  split; [exact H1 |]. split; [exact H2 |]. split; [exact Hs2 |].
  repeat split.
Defined.

Lemma config_input_list_witness :
  let o := Scenario.list_options in
  let st := mkState [["a.mp4"%string; "b.mp4"%string]] [] in
  is_Some (heap st !! 0%nat) /\
  exists c st',
    build_config Scenario.same_serial Scenario.input o "A" st = (Ok c, st') /\
    cfg_infile_list c = FList 1%nat /\
    view (heap st') (cfg_infile_list c) = VList (Some ["a.mp4"%string; "b.mp4"%string]) /\
    cfg_android_serial c = Some "A"%string /\
    (forall l, cfg_infile_list c = FList l -> (length (heap st) <= l < length (heap st'))%nat) /\
    independent (heap st') (cfg_infile_list c) (opt_infile_list o).
Proof.
  intros o st.
  assert (Hlive : forall l, opt_infile_list o = FList l -> is_Some (heap st !! l)).
  { intros l [= <-]. now exists ["a.mp4"%string; "b.mp4"%string]. }
  split; [exact (Hlive 0%nat eq_refl) |].
  destruct (config_input_list Scenario.same_serial Scenario.input o "A" st Hlive)
    as (c & st' & Hb & _ & Hview & Hser & _ & _ & _ & _ & _ & _ & Hfresh & Hind & _).
  exists c, st'.
  pose proof Hb as Hb'. vm_compute in Hb'. injection Hb' as <- <-.
  split; [exact Hb |]. split; [reflexivity |]. split; [exact Hview |].
  split; [exact Hser |]. split; [exact Hfresh | exact Hind].
Defined.

Lemma enumerated_once_first_witness :
  let o := Edge.idle_options in
  let run := Scenario.run Scenario.serials Scenario.all_writable o in
  opt_test_list o = false /\
  exists rest,
    trace (snd run) =
      Print (LDebug (set_outfile o)) :: CallGetAllSerials None :: rest /\
    List.filter is_enumeration rest = [].
Proof.
  intros o run. split; [reflexivity |].
  exact (enumerated_once_first Scenario.serials Scenario.same_serial
           Scenario.registry Scenario.all_writable Scenario.input o [] eq_refl).
Defined.

Lemma informational_lines_witness :
  let o := Scenario.options "ping" in
  let run := Scenario.run Scenario.no_serials Scenario.all_writable o in
  opt_test_list o = false /\
  In (Print (LText "No connected devices")) (trace (snd run)) /\
  ~ In (Print (LDebug (set_outfile o))) (trace (snd run)).
Proof.
  intros o run. split; [reflexivity |].
  destruct (informational_lines Scenario.no_serials Scenario.same_serial
              Scenario.registry Scenario.all_writable Scenario.input o [] eq_refl)
    as (Hnone & Hdebug).
  split; [exact (proj2 Hnone eq_refl) |].
  intros Hin. apply Hdebug in Hin as [Hpos _]. discriminate Hpos.
Defined.
